(** * pyOpenSprinklerRest: the field codecs and the Controller accessor

    A shallow embedding of [openSprinkler.py].  Python values are a small
    inductive type, exceptions are the [Raise] branch of [result], and the
    one mutable object (the Controller instance), the HTTP traffic and the
    wall clock are threaded through a state monad.  Integers are unbounded
    ([Z]); date-times and durations carry the range checks of [datetime];
    the one float computation, in [RainDelaySet], is rounded as binary64.

    The first part holds the definitions, in the order of the source; the
    second part the properties: station status, external IP, the response
    envelope, the two accessors, sunrise and sunset, rain delay. *)

From Stdlib Require Import ZArith Lia Ascii String.
From Stdlib Require Import Floats.SpecFloat.
From stdpp Require Import base gmap strings list pretty.

Open Scope Z_scope.
Local Set Warnings "-register-all".

(** ** Python values *)

(** The values that flow through the module: what [r.json()] yields
    (null, booleans, integers, strings, arrays, objects with string keys),
    plus tuples, naive date-times, the [OpenSprinkler] instance stored in
    [Controller.parent] and what the [Controller] class body binds to a name
    (a registry or a method).  A naive [datetime] is the number of microseconds
    since 0001-01-01T00:00:00.  JSON numbers with a fraction are not part of
    the model: the device reports integers. *)
Inductive pyval : Type :=
| PNone
| PBool (b : bool)
| PInt (z : Z)
| PStr (s : string)
| PList (l : list pyval)
| PTuple (l : list pyval)
| PDict (d : list (string * pyval))
| PDateTime (us : Z)
| PSprinkler (hostname password : string)
| PClassMember (name : string).

Inductive exn : Type :=
| TypeError
| AttributeError
| OverflowError
| OSError
| KeyError (key : pyval)
| ValueError (args : list pyval)
| RequestException
| JSONDecodeError.

Inductive result (A : Type) : Type :=
| Ok (a : A)
| Raise (e : exn).
Arguments Ok {A} a.
Arguments Raise {A} e.

Definition rbind {A B} (r : result A) (k : A -> result B) : result B :=
  match r with
  | Ok a => k a
  | Raise e => Raise e
  end.

Notation "x <-r c ;; k" := (rbind c (fun x => k))
  (at level 100, c at next level, right associativity).

(** [bool] is a subclass of [int]: arithmetic sees [True] as 1. *)
Definition as_int (v : pyval) : option Z :=
  match v with
  | PInt z => Some z
  | PBool b => Some (if b then 1 else 0)
  | _ => None
  end.

(** Truth value testing ([if x], [not x], [bool(x)]). *)
Definition py_truth (v : pyval) : bool :=
  match v with
  | PNone => false
  | PBool b => b
  | PInt z => negb (z =? 0)
  | PStr s => negb (String.eqb s "")
  | PList l | PTuple l => match l with [] => false | _ => true end
  | PDict d => match d with [] => false | _ => true end
  | PDateTime _ => true
  | PSprinkler _ _ => true
  | PClassMember _ => true
  end.

(** [v == n] for an integer literal [n]. *)
Definition py_eq_int (v : pyval) (n : Z) : bool :=
  match as_int v with
  | Some z => z =? n
  | None => false
  end.

(** ** Dictionaries

    A [dict] keeps insertion order ([variables.items()] is iterated to build
    the query string), so it is an association list with unique keys. *)
Fixpoint dict_get (k : string) (d : list (string * pyval)) : option pyval :=
  match d with
  | [] => None
  | (k', v) :: d' => if String.eqb k k' then Some v else dict_get k d'
  end.

Fixpoint dict_set (k : string) (v : pyval) (d : list (string * pyval))
  : list (string * pyval) :=
  match d with
  | [] => [(k, v)]
  | (k', v') :: d' =>
      if String.eqb k k' then (k, v) :: d' else (k', v') :: dict_set k v d'
  end.

(** ** The environment

    What the module takes from its surroundings: the HTTP peer (the response
    to a URL, given the URLs requested before it), the wall clock (the n-th
    reading of [datetime.now()], in microseconds since 0001-01-01), and three
    library functions whose results the module only passes on: [repr] of
    containers, [int()] of a string and the local-time conversion of
    [datetime.fromtimestamp]. *)
Record Response : Type := {
  status_code : Z;
  json : result pyval;
}.

Class Runtime : Type := {
  http_get : list string -> string -> result Response;
  wall_clock : nat -> Z;
  repr_compound : pyval -> string;
  int_of_str : string -> result Z;
  fromtimestamp : Z -> result Z;
}.

(** ** String formatting *)

Definition digits (z : Z) : string := pretty z.

Section Formatting.
Context `{Runtime}.

Definition py_str (v : pyval) : string :=
  match v with
  | PStr s => s
  | PInt z => digits z
  | PBool b => if b then "True" else "False"
  | PNone => "None"
  | _ => repr_compound v
  end.

(** The [%] operator for the conversions the module uses: [%d], [%s] and
    the literal [%%].  Too few or too many arguments, and [%d] of a
    non-number, raise [TypeError]. *)
Fixpoint percent_format (fmt : string) (args : list pyval) : result string :=
  match fmt with
  | EmptyString =>
      match args with
      | [] => Ok ""
      | _ => Raise TypeError
      end
  | String "%"%char (String "d"%char rest) =>
      match args with
      | a :: args' =>
          match as_int a with
          | Some z => s <-r percent_format rest args';; Ok (digits z +:+ s)
          | None => Raise TypeError
          end
      | [] => Raise TypeError
      end
  | String "%"%char (String "s"%char rest) =>
      match args with
      | a :: args' => s <-r percent_format rest args';; Ok (py_str a +:+ s)
      | [] => Raise TypeError
      end
  | String "%"%char (String "%"%char rest) =>
      s <-r percent_format rest args;; Ok ("%" +:+ s)
  | String "%"%char _ => Raise (ValueError [PStr "unsupported format character"])
  | String c rest => s <-r percent_format rest args;; Ok (String c s)
  end.
End Formatting.

(** ** Integer transforms *)

(** [x >> n], [x & y], [1 << i] on Python's unbounded integers; a
    non-number operand raises [TypeError]. *)
Definition py_rshift (v : pyval) (n : Z) : result pyval :=
  match as_int v with
  | Some z => Ok (PInt (Z.shiftr z n))
  | None => Raise TypeError
  end.

Definition py_and (v : pyval) (n : Z) : result pyval :=
  match as_int v with
  | Some z => Ok (PInt (Z.land z n))
  | None => Raise TypeError
  end.

(** [for i in range(8): retval.append(stat & (1<<i))], as a loop over the
    indices that threads the list being built. *)
Fixpoint Stations_loop (stat : pyval) (idx : list Z) (retval : list pyval)
  : result (list pyval) :=
  match idx with
  | [] => Ok retval
  | i :: idx' =>
      b <-r py_and stat (Z.shiftl 1 i);;
      Stations_loop stat idx' (retval ++ [b])
  end.

Definition range8 : list Z := [0; 1; 2; 3; 4; 5; 6; 7].

Definition Stations (stat : pyval) : result pyval :=
  retval <-r Stations_loop stat range8 [];;
  Ok (PTuple retval).

Definition Nop (val : pyval) : result pyval := Ok val.

Section IPAddress.
Context `{Runtime}.

Definition IPAddress (ip : pyval) : result pyval :=
  a <-r py_rshift ip 24;;
  b0 <-r py_rshift ip 16;;
  b <-r py_and b0 255;;
  c0 <-r py_rshift ip 8;;
  c <-r py_and c0 255;;
  d <-r py_and ip 255;;
  s <-r percent_format "%d.%d.%d.%d" [a; b; c; d];;
  Ok (PStr s).
End IPAddress.

(** ** Binary64 arithmetic

    [timedelta.total_seconds()] and [/ 60] are float operations.  A finite
    float is kept as mantissa and exponent, [fmant * 2 ^ fexp]; both
    quotients are correctly rounded (to nearest, ties to even) as IEEE 754
    and CPython's integer true division prescribe.  The quotients this
    module forms stay below [2 ^ 47] in magnitude, far from overflow. *)
Record float : Type := { fmant : Z; fexp : Z }.

(** The ratio [n / d] scaled by [2 ^ k] is [scaled_num n k / scaled_den d k]. *)
Definition scaled_num (n k : Z) : Z := n * 2 ^ Z.max 0 k.
Definition scaled_den (d k : Z) : Z := d * 2 ^ Z.max 0 (- k).

(** [floor (log2 (n / d))] for positive [n] and [d], as far down as
    -1100: the integer part of [n * 2 ^ 1100 / d] has the same leading bit. *)
Definition ilog2_ratio (n d : Z) : Z := Z.log2 (n * 2 ^ 1100 / d) - 1100.

(** [n / d] rounded to an integer, ties to even. *)
Definition round_half_even (n d : Z) : Z :=
  let q := n / d in
  match 2 * (n mod d) ?= d with
  | Lt => q
  | Gt => q + 1
  | Eq => if Z.even q then q else q + 1
  end.

(** A positive quotient keeps 53 significant bits: with [e] the exponent of
    its leading bit (no lower than -1022, where the subnormal range begins)
    it is rounded to a multiple of [2 ^ (e - 52)]. *)
Definition round_binary64_pos (n d : Z) : float :=
  let s := Z.max (ilog2_ratio n d) (-1022) - 52 in
  {| fmant := round_half_even (scaled_num n (- s)) (scaled_den d (- s));
     fexp := s |}.

(** The float nearest to [n / d], for [d > 0]. *)
Definition round_binary64 (n d : Z) : float :=
  match n with
  | 0 => {| fmant := 0; fexp := 0 |}
  | Zpos _ => round_binary64_pos n d
  | Zneg _ =>
      let f := round_binary64_pos (- n) d in
      {| fmant := - fmant f; fexp := fexp f |}
  end.

(** [x / k] for a float [x] and a positive integer [k]. *)
Definition float_div_int (x : float) (k : Z) : float :=
  round_binary64 (scaled_num (fmant x) (fexp x)) (scaled_den k (fexp x)).

(** [int(x)]: truncation toward zero. *)
Definition int_of_float (x : float) : Z :=
  Z.quot (scaled_num (fmant x) (fexp x)) (scaled_den 1 (fexp x)).

(** The same quotient through the Standard Library's IEEE 754 model, for
    operands below [2 ^ 53] (which convert to binary64 exactly). *)
Definition binary64_of_Z (z : Z) : spec_float :=
  binary_normalize 53 1024 z 0 false.

Definition float_of_spec (x : spec_float) : float :=
  match x with
  | S754_finite s m e =>
      {| fmant := if s then Z.neg m else Z.pos m; fexp := e |}
  | _ => {| fmant := 0; fexp := 0 |}
  end.

(** ** Dates and durations

    A [timedelta] is its length in microseconds; it holds between
    -999999999 days and 999999999 days, 23:59:59.999999.  A [datetime] lies
    in the years 1 to 9999, that is on the ordinal days 1 to 3652059. *)
Definition MINUTE : Z := 60 * 1000000.
Definition DAY : Z := 86400 * 1000000.
Definition MAXORDINAL : Z := 3652059.

Definition valid_datetime (us : Z) : bool :=
  (0 <=? us) && (us <? MAXORDINAL * DAY).

Definition valid_timedelta (us : Z) : bool :=
  (-999999999 * DAY <=? us) && (us <? 1000000000 * DAY).

Definition timedelta (us : Z) : result Z :=
  if valid_timedelta us then Ok us else Raise OverflowError.

(** [timedelta(minutes=m)]. *)
Definition timedelta_minutes (m : pyval) : result Z :=
  match as_int m with
  | Some n => timedelta (n * MINUTE)
  | None => Raise TypeError
  end.

(** [dt + td] and [dt - td]: the result must be a date-time again. *)
Definition datetime_add (dt td : Z) : result Z :=
  if valid_datetime (dt + td) then Ok (dt + td) else Raise OverflowError.

Definition datetime_sub (dt td : Z) : result Z :=
  if valid_datetime (dt - td) then Ok (dt - td) else Raise OverflowError.

(** [now.replace(hour=0, minute=0, second=0, microsecond=0)]. *)
Definition replace_midnight (now : Z) : Z := now - now mod DAY.

(** [td.total_seconds()]. *)
Definition total_seconds (td : Z) : float := round_binary64 td 1000000.

(** ** State

    The mutable part of a run: the instance dictionary of the one
    [Controller] object, the URLs requested so far (oldest first) and the
    number of clock readings taken. *)
Record State : Type := {
  attrs : gmap string pyval;
  requests : list string;
  clock_reads : nat;
}.

Definition M (A : Type) : Type := State -> result A * State.

Definition ret {A} (a : A) : M A := fun st => (Ok a, st).

Definition raise {A} (e : exn) : M A := fun st => (Raise e, st).

Definition bind {A B} (m : M A) (k : A -> M B) : M B :=
  fun st =>
    match m st with
    | (Ok a, st') => k a st'
    | (Raise e, st') => (Raise e, st')
    end.

Definition lift {A} (r : result A) : M A := fun st => (r, st).

Notation "x <- c ;; k" := (bind c (fun x => k))
  (at level 100, c at next level, right associativity).

Section Module.
Context `{Runtime}.

(** [datetime.datetime.now()]. *)
Definition datetime_now : M Z :=
  fun st =>
    (Ok (wall_clock (clock_reads st)),
     {| attrs := attrs st; requests := requests st;
        clock_reads := S (clock_reads st) |}).

(** [requests.get(url)]. *)
Definition requests_get (url : string) : M Response :=
  fun st =>
    (http_get (requests st) url,
     {| attrs := attrs st; requests := requests st ++ [url];
        clock_reads := clock_reads st |}).

(** *** The decode and encode transforms *)

Definition py_int (v : pyval) : result pyval :=
  match v with
  | PInt z => Ok (PInt z)
  | PBool b => Ok (PInt (if b then 1 else 0))
  | PStr s => z <-r int_of_str s;; Ok (PInt z)
  | _ => Raise TypeError
  end.

Definition py_bool (v : pyval) : result pyval := Ok (PBool (py_truth v)).

Definition str (v : pyval) : result pyval := Ok (PStr (py_str v)).

Definition OSDateTime (ts : pyval) : result pyval :=
  match as_int ts with
  | Some z => us <-r fromtimestamp z;; Ok (PDateTime us)
  | None => Raise TypeError
  end.

Definition SunTime (minutes : pyval) : M pyval :=
  if py_eq_int minutes 0 then ret PNone
  else
    now <- datetime_now;;
    let midnight := replace_midnight now in
    day <- lift (timedelta DAY);;
    tomorrow <- lift (datetime_add midnight day);;
    td <- lift (timedelta_minutes minutes);;
    t <- lift (datetime_sub tomorrow td);;
    ret (PDateTime t).

Definition RainDelaySet (dt : pyval) : M pyval :=
  if negb (py_truth dt) then ret (PInt 0)
  else
    now <- datetime_now;;
    match dt with
    | PDateTime t =>
        delta <- lift (timedelta (t - now));;
        ret (PInt (int_of_float (float_div_int (total_seconds delta) 60)))
    | _ => raise TypeError
    end.

(** *** Field descriptors *)

Record FieldDescriptor : Type := {
  _tag : string;
  _type : pyval -> M pyval;
}.

(** [FieldGetDescriptor.getAsType]: [self._type(data[self._tag])].
    Subscripting a dict with a missing key raises [KeyError]; a list or a
    string cannot be subscripted with a string, a number or null not at
    all. *)
Definition py_getitem (data : pyval) (key : string) : result pyval :=
  match data with
  | PDict d =>
      match dict_get key d with
      | Some v => Ok v
      | None => Raise (KeyError (PStr key))
      end
  | _ => Raise TypeError
  end.

Definition getAsType (self : FieldDescriptor) (data : pyval) : M pyval :=
  v <- lift (py_getitem data (_tag self));;
  _type self v.

(** [FieldSetDescriptor.setAsType]: [data[self._tag] = self._type(data)].
    The dict is updated in place; the updated dict is returned here. *)
Definition py_setitem (data : pyval) (key : string) (v : pyval)
  : result pyval :=
  match data with
  | PDict d => Ok (PDict (dict_set key v d))
  | _ => Raise TypeError
  end.

Definition setAsType (self : FieldDescriptor) (data : pyval) : M pyval :=
  v <- _type self data;;
  lift (py_setitem data (_tag self) v).

Definition pure (f : pyval -> result pyval) : pyval -> M pyval :=
  fun v => lift (f v).

Definition my_get_args : list (string * FieldDescriptor) :=
  [ ("device_time", {| _tag := "devt"; _type := pure OSDateTime |});
    ("board_count", {| _tag := "nbrd"; _type := pure py_int |});
    ("enable", {| _tag := "en"; _type := pure py_bool |});
    ("rain_delay", {| _tag := "rd"; _type := pure py_bool |});
    ("rain_sensor", {| _tag := "rs"; _type := pure py_bool |});
    ("rain_resume", {| _tag := "rdst"; _type := pure str |});
    ("location", {| _tag := "loc"; _type := pure str |});
    ("weather_id", {| _tag := "wtkey"; _type := pure str |});
    ("sunrise", {| _tag := "sunrise"; _type := SunTime |});
    ("sunset", {| _tag := "sunset"; _type := SunTime |});
    ("external_ip", {| _tag := "eip"; _type := pure IPAddress |});
    ("last_weather", {| _tag := "lwc"; _type := pure OSDateTime |});
    ("last_good_weather", {| _tag := "lswc"; _type := pure OSDateTime |});
    ("station_status", {| _tag := "sbits"; _type := pure Stations |});
    ("program_status", {| _tag := "ps"; _type := pure Nop |});
    ("last_run", {| _tag := "lrun"; _type := pure Nop |}) ].

Definition my_set_args : list (string * FieldDescriptor) :=
  [ ("reset_all", {| _tag := "rsn"; _type := pure py_int |});
    ("reboot", {| _tag := "rbt"; _type := pure py_int |});
    ("enable", {| _tag := "en"; _type := pure py_int |});
    ("rain_delay", {| _tag := "rd"; _type := RainDelaySet |});
    ("remote_extension", {| _tag := "re"; _type := pure py_int |}) ].

(** [registry[name]], with [None] standing for [name not in registry.keys()]. *)
Fixpoint registry_get (name : string) (reg : list (string * FieldDescriptor))
  : option FieldDescriptor :=
  match reg with
  | [] => None
  | (k, fd) :: reg' =>
      if String.eqb name k then Some fd else registry_get name reg'
  end.

(** *** OpenSprinkler._json_get *)

Definition STATUS_SUCCESS : Z := 1.

Definition STATUS_CODES : list (Z * string) :=
  [ (1, "Success");
    (2, "Unauthorized (e.g. missing password or password is incorrect)");
    (3, "Mismatch (e.g. new password and confirmation password do not match)");
    (16, "Data Missing (e.g. missing required parameters)");
    (17, "Out of Range (e.g. value exceeds the acceptable range)");
    (18, "Data Format Error (e.g. provided data does not match required format)");
    (19, "RF code error (e.g. RF code does not match required format)");
    (32, "Page Not Found (e.g. page not found or requested file missing)");
    (48, "Not Permitted (e.g. cannot operate on the requested station)") ].

Fixpoint status_get (code : Z) (tbl : list (Z * string)) : option string :=
  match tbl with
  | [] => None
  | (c, msg) :: tbl' => if code =? c then Some msg else status_get code tbl'
  end.

(** Lists and dicts cannot be dictionary keys. *)
Fixpoint hashable (v : pyval) : bool :=
  match v with
  | PList _ | PDict _ => false
  | PTuple l => forallb hashable l
  | _ => true
  end.

(** [STATUS_CODES[key]]: an integer key (or a boolean, which hashes and
    compares as one) is looked up; any other hashable key is absent. *)
Definition STATUS_CODES_getitem (key : pyval) : result pyval :=
  if hashable key then
    match as_int key with
    | Some z =>
        match status_get z STATUS_CODES with
        | Some msg => Ok (PStr msg)
        | None => Raise (KeyError key)
        end
    | None => Raise (KeyError key)
    end
  else Raise TypeError.

(** ['result' in retval]: key test on a dict, element test on a list,
    substring test on a string, [TypeError] on anything else. *)
Definition is_str (s : string) (v : pyval) : bool :=
  match v with
  | PStr s' => String.eqb s' s
  | _ => false
  end.

Definition py_contains (container : pyval) (s : string) : result bool :=
  match container with
  | PDict d => Ok (match dict_get s d with Some _ => true | None => false end)
  | PList l | PTuple l => Ok (existsb (is_str s) l)
  | PStr t =>
      Ok (match String.index 0 s t with Some _ => true | None => false end)
  | _ => Raise TypeError
  end.

(** [for k,v in variables.items(): requests_str += '&' + str(k) + '=' + str(v)] *)
Fixpoint query_loop (items : list (string * pyval)) (requests_str : string)
  : string :=
  match items with
  | [] => requests_str
  | (k, v) :: items' =>
      query_loop items' (requests_str +:+ "&" +:+ k +:+ "=" +:+ py_str v)
  end.

(** The two [log.debug] calls write to the log and nothing else. *)
Definition _json_get (hostname password path : string) (variables : pyval)
  : M pyval :=
  requests_str <- lift (percent_format "http://%s/%s/?pw=%s"
                          [PStr hostname; PStr path; PStr password]);;
  requests_str <-
    (if py_truth variables then
       match variables with
       | PDict d => ret (query_loop d requests_str)
       | _ => raise AttributeError
       end
     else ret requests_str);;
  r <- requests_get requests_str;;
  if negb (status_code r =? 200) then
    raise (ValueError [PStr "Failed GET request with status %d.";
                       PInt (status_code r)])
  else
    retval <- lift (json r);;
    present <- lift (py_contains retval "result");;
    failed <-
      (if present then
         code <- lift (py_getitem retval "result");;
         ret (negb (py_eq_int code STATUS_SUCCESS))
       else ret false);;
    if failed then
      code <- lift (py_getitem retval "result");;
      msg <- lift (STATUS_CODES_getitem code);;
      raise (ValueError [PStr "Failure response (%d):%s"; code; msg])
    else ret retval.

(** *** Controller

    The instance is its dictionary ([attrs]).  [self.my_get_args] and
    [self.my_set_args] are the class attributes: the instance dictionary is
    taken not to bind these two names. *)

(** [self.parent] as the two accessors evaluate it.  The instance
    dictionary is searched first; the class binds no [parent], so a miss
    ends in [__getattr__('parent')], which, [parent] being no key of
    [my_get_args], returns [None]. *)
Definition self_parent : M pyval :=
  fun st => (Ok (default PNone (attrs st !! "parent")), st).

(** [obj._json_get(path, variables)]: only an [OpenSprinkler] has it. *)
Definition call_json_get (obj : pyval) (path : string) (variables : pyval)
  : M pyval :=
  match obj with
  | PSprinkler hostname password => _json_get hostname password path variables
  | _ => raise AttributeError
  end.

Definition __getattr__ (name : string) : M pyval :=
  match registry_get name my_get_args with
  | Some fd =>
      parent <- self_parent;;
      data <- call_json_get parent "jc" PNone;;
      getAsType fd data
  | None => ret PNone
  end.

(** The three names [object.__setattr__] serves itself instead of storing:
    the data descriptors every instance of a plain class has. *)
Definition object_reserved (name : string) : bool :=
  String.eqb name "__class__" || String.eqb name "__dict__"
  || String.eqb name "__weakref__".

(** A registry as the items of a dict: each name with the descriptor object
    it is bound to, written [PClassMember "registry[name]"]. *)
Definition registry_items (label : string)
    (reg : list (string * FieldDescriptor)) : list (string * pyval) :=
  map (fun entry =>
         (fst entry, PClassMember (label +:+ "[" +:+ fst entry +:+ "]")))
    reg.

(** The values that are dicts: a [PDict], and the two registries when they
    were read off the class. *)
Definition as_dict (value : pyval) : option (list (string * pyval)) :=
  match value with
  | PDict d => Some d
  | PClassMember member =>
      if String.eqb member "my_get_args"
      then Some (registry_items "my_get_args" my_get_args)
      else if String.eqb member "my_set_args"
      then Some (registry_items "my_set_args" my_set_args)
      else None
  | _ => None
  end.

(** [super().__setattr__(name, value)]: [object] stores the value in the
    instance dictionary, except under its three reserved names.
    [__class__] takes a class only, and no value here is one ([TypeError]);
    [__weakref__] is not writable ([AttributeError]); [__dict__] takes a
    dict, which becomes the instance dictionary, and nothing else
    ([TypeError]). *)
Definition object_setattr (name : string) (value : pyval) : M pyval :=
  if String.eqb name "__class__" then raise TypeError
  else if String.eqb name "__weakref__" then raise AttributeError
  else if String.eqb name "__dict__" then
    match as_dict value with
    | Some d =>
        fun st =>
          (Ok PNone,
           {| attrs := list_to_map d; requests := requests st;
              clock_reads := clock_reads st |})
    | None => raise TypeError
    end
  else
    fun st =>
      (Ok PNone,
       {| attrs := <[name := value]> (attrs st); requests := requests st;
          clock_reads := clock_reads st |}).

Definition __setattr__ (name : string) (value : pyval) : M pyval :=
  match registry_get name my_set_args with
  | Some fd =>
      data <- setAsType fd (PDict []);;
      parent <- self_parent;;
      _ <- call_json_get parent "cv" data;;
      ret PNone
  | None => object_setattr name value
  end.

(** [Controller.__init__]: [self.parent = p], an attribute assignment
    like any other. *)
Definition __init__ (p : pyval) : M pyval := __setattr__ "parent" p.

(** The names the class body binds; the interpreter finds them on the
    class.  (What [object] itself provides is not listed.) *)
Definition class_namespace : list string :=
  ["__doc__"; "my_get_args"; "my_set_args"; "__init__"; "__getattr__";
   "__setattr__"].

(** An attribute read [controller.name]: instance dictionary, then the
    class, and [__getattr__] only when both miss. *)
Definition getattr (name : string) : M pyval :=
  fun st =>
    match attrs st !! name with
    | Some v => (Ok v, st)
    | None =>
        if existsb (String.eqb name) class_namespace
        then (Ok (PClassMember name), st)
        else __getattr__ name st
    end.

(** An attribute assignment [controller.name = value]. *)
Definition setattr (name : string) (value : pyval) : M pyval :=
  __setattr__ name value.

(** [name in registry.keys()]. *)
Definition registered (name : string) (reg : list (string * FieldDescriptor))
  : bool :=
  match registry_get name reg with
  | Some _ => true
  | None => false
  end.

(** The instance dictionary binds neither registry name, so that
    [self.my_get_args] and [self.my_set_args] are the class attributes, as
    the two accessors above take them. *)
Definition unshadowed (st : State) : Prop :=
  attrs st !! "my_get_args" = None /\ attrs st !! "my_set_args" = None.

(** An instance dictionary that, besides, holds no Set-registry name. *)
Definition clean_instance (st : State) : Prop :=
  unshadowed st
  /\ forall name, registered name my_set_args = true -> attrs st !! name = None.
End Module.

(** ** [_json_get] as request and outcome

    The URL [_json_get] requests, and the result it ends with as a function
    of the response it received. *)
Section Outcome.
Context `{Runtime}.

Definition request_url (hostname password path : string) (variables : pyval)
  : result string :=
  base <-r percent_format "http://%s/%s/?pw=%s"
             [PStr hostname; PStr path; PStr password];;
  if py_truth variables then
    match variables with
    | PDict d => Ok (query_loop d base)
    | _ => Raise AttributeError
    end
  else Ok base.

Definition response_outcome (r : Response) : result pyval :=
  if negb (status_code r =? 200) then
    Raise (ValueError [PStr "Failed GET request with status %d.";
                       PInt (status_code r)])
  else
    retval <-r json r;;
    present <-r py_contains retval "result";;
    if present then
      code <-r py_getitem retval "result";;
      if py_eq_int code STATUS_SUCCESS then Ok retval
      else
        msg <-r STATUS_CODES_getitem code;;
        Raise (ValueError [PStr "Failure response (%d):%s"; code; msg])
    else Ok retval.

Definition sent (url : string) (st : State) : State :=
  {| attrs := attrs st; requests := requests st ++ [url];
     clock_reads := clock_reads st |}.

(** The state after one reading of the clock. *)
Definition ticked (st : State) : State :=
  {| attrs := attrs st; requests := requests st;
     clock_reads := S (clock_reads st) |}.
End Outcome.

(** ** Footprints

    A computation that leaves the instance dictionary alone, and one that
    sends no request. *)
Definition keeps_attrs {A} (m : M A) : Prop :=
  forall st, attrs (snd (m st)) = attrs st.

Definition keeps_requests {A} (m : M A) : Prop :=
  forall st, requests (snd (m st)) = requests st.

(** ** A concrete environment

    A device that gives the same answer to every request, a clock stopped at
    one instant, and a host whose local time is UTC. *)
Definition EPOCH : Z := (719163 - 1) * DAY.

Definition noon_2023_11_14 : Z := (738838 - 1) * DAY + 12 * 3600 * 1000000.

Definition fixed_device (status : Z) (body : result pyval) (now : Z) : Runtime :=
  {| http_get := fun _ _ => Ok {| status_code := status; json := body |};
     wall_clock := fun _ => now;
     repr_compound := fun _ => "";
     int_of_str := fun _ => Raise (ValueError []);
     fromtimestamp := fun ts =>
       if valid_datetime (EPOCH + ts * 1000000)
       then Ok (EPOCH + ts * 1000000) else Raise OverflowError |}.

Definition new_object : State :=
  {| attrs := ∅; requests := []; clock_reads := 0 |}.

(** [Controller(OpenSprinkler(hostname, ...))], with the hashed password the
    [OpenSprinkler] constructor stored. *)
Definition Controller `{Runtime} (hostname password : string) : State :=
  snd (__init__ (PSprinkler hostname password) new_object).

(** ** Re-packing a station tuple *)

(** The sum of the elements. *)
Definition sum_elements (t : list Z) : Z := foldr Z.add 0 t.

(** [sum(bit_i << i)] over the elements taken as they are. *)
Fixpoint repack_from (i : Z) (t : list Z) : Z :=
  match t with
  | [] => 0
  | e :: t' => Z.shiftl e i + repack_from (i + 1) t'
  end.

Definition repack (t : list Z) : Z := repack_from 0 t.

(** [sum(bool(e_i) << i)]: each element reduced to its truth value first. *)
Definition repack_truth (t : list Z) : Z :=
  repack (map (fun e => if py_truth (PInt e) then 1 else 0) t).

(** The decoded tuple, element by element. *)
Definition station_masks (m : Z) : list Z :=
  map (fun i => Z.land m (2 ^ i)) range8.

(** * Properties *)

(** ** Station status *)

Lemma land_pow2 (m i : Z) :
  0 <= i -> Z.land m (2 ^ i) = if Z.testbit m i then 2 ^ i else 0.
Proof.
  intros Hi. apply Z.bits_inj'. intros n Hn.
  rewrite Z.land_spec, Z.pow2_bits_eqb by lia.
  destruct (Z.eqb_spec i n) as [->|Hne].
  - destruct (Z.testbit m n); simpl.
    + rewrite Z.pow2_bits_eqb, Z.eqb_refl by lia. reflexivity.
    + now rewrite Z.bits_0.
  - rewrite andb_false_r. destruct (Z.testbit m i).
    + rewrite Z.pow2_bits_eqb by lia. symmetry. now apply Z.eqb_neq.
    + now rewrite Z.bits_0.
Qed.

Lemma Stations_loop_spec (m : Z) (idx : list Z) (acc : list pyval) :
  Stations_loop (PInt m) idx acc
  = Ok (acc ++ map (fun i => PInt (Z.land m (Z.shiftl 1 i))) idx).
Proof.
  revert acc. induction idx as [|i idx IH]; intros acc; simpl.
  - now rewrite app_nil_r.
  - rewrite IH, <- app_assoc. reflexivity.
Qed.

Lemma Stations_int (m : Z) :
  Stations (PInt m) = Ok (PTuple (map PInt (station_masks m))).
Proof.
  unfold Stations. rewrite Stations_loop_spec. reflexivity.
Qed.

Lemma testbit_div (m i : Z) :
  0 <= i -> (m / 2 ^ i) mod 2 = if Z.testbit m i then 1 else 0.
Proof.
  intros Hi. rewrite Z.testbit_odd, Z.shiftr_div_pow2 by lia.
  rewrite Zmod_odd. reflexivity.
Qed.

Lemma mask_truth (m i : Z) :
  0 <= i -> py_truth (PInt (Z.land m (2 ^ i))) = Z.testbit m i.
Proof.
  intros Hi. rewrite land_pow2 by lia. simpl.
  destruct (Z.testbit m i); simpl; [|reflexivity].
  apply negb_true_iff, Z.eqb_neq. pose proof (Z.pow_pos_nonneg 2 i). lia.
Qed.

Lemma byte_bits (m : Z) :
  0 <= m <= 255 ->
  (m / 2 ^ 0) mod 2 * 2 ^ 0 + (m / 2 ^ 1) mod 2 * 2 ^ 1
  + (m / 2 ^ 2) mod 2 * 2 ^ 2 + (m / 2 ^ 3) mod 2 * 2 ^ 3
  + (m / 2 ^ 4) mod 2 * 2 ^ 4 + (m / 2 ^ 5) mod 2 * 2 ^ 5
  + (m / 2 ^ 6) mod 2 * 2 ^ 6 + (m / 2 ^ 7) mod 2 * 2 ^ 7 = m.
Proof.
  intros Hm. change (2 ^ 0) with 1. change (2 ^ 1) with 2.
  change (2 ^ 2) with 4. change (2 ^ 3) with 8. change (2 ^ 4) with 16.
  change (2 ^ 5) with 32. change (2 ^ 6) with 64. change (2 ^ 7) with 128.
  Z.to_euclidean_division_equations. lia.
Qed.

Lemma mask_div (m i : Z) :
  0 <= i -> Z.land m (2 ^ i) = (m / 2 ^ i) mod 2 * 2 ^ i.
Proof.
  intros Hi. rewrite land_pow2, testbit_div by lia.
  destruct (Z.testbit m i); lia.
Qed.

(** C1 (as amended): for every m in [0,255] the station-status decode
    yields a tuple of exactly 8 integers; element i is the masked value
    [m & (1 << i)], whose truth value is bit i of m; the sum of the elements,
    and likewise [sum(bool(e_i) << i)], recovers m. *)
Theorem Stations_decode_repack (m : Z) (Hm : 0 <= m <= 255) :
  let t := station_masks m in
  Stations (PInt m) = Ok (PTuple (map PInt t))
  /\ length t = 8%nat
  /\ (forall (i : nat) (e : Z), t !! i = Some e ->
        e = Z.land m (Z.shiftl 1 (Z.of_nat i))
        /\ py_truth (PInt e) = Z.testbit m (Z.of_nat i))
  /\ sum_elements t = m
  /\ repack_truth t = m.
Proof.
  intros t. split; [apply Stations_int|]. split; [reflexivity|].
  split; [|split].
  - intros i e Hi.
    assert (Hlt : (i < 8)%nat) by (apply lookup_lt_Some in Hi; exact Hi).
    do 8 (destruct i as [|i]; [inversion Hi; subst e; split;
          [reflexivity | apply mask_truth; lia]|]).
    lia.
  - unfold t, station_masks, sum_elements, range8. simpl.
    rewrite !mask_div by lia. pose proof (byte_bits m Hm). lia.
  - unfold t, station_masks, repack_truth, repack, range8.
    cbn [map repack_from].
    rewrite !mask_truth by lia.
    rewrite !Z.shiftl_mul_pow2 by lia.
    change (0 + 1) with 1. change (1 + 1) with 2. change (2 + 1) with 3.
    change (3 + 1) with 4. change (4 + 1) with 5. change (5 + 1) with 6.
    change (6 + 1) with 7.
    rewrite <- !testbit_div by lia. pose proof (byte_bits m Hm). lia.
Qed.

Lemma Stations_decode_repack_5 :
  0 <= 5 <= 255
  /\ Stations (PInt 5)
     = Ok (PTuple (map PInt [1; 0; 4; 0; 0; 0; 0; 0]))
  /\ sum_elements (station_masks 5) = 5
  /\ repack_truth (station_masks 5) = 5.
Proof.
  assert (H5 : 0 <= 5 <= 255) by lia.
  destruct (Stations_decode_repack 5 H5) as (Hdec & _ & _ & Hsum & Hre).
  split; [exact H5|]. split; [exact Hdec|]. split; [exact Hsum | exact Hre].
Defined.

(** C1, as stated, fails at m = 5: the decoded elements are the integers
    1, 0, 4, 0, ..., not booleans, and [sum(bit_i << i)] over them is 17. *)
Lemma Stations_5_not_booleans :
  Stations (PInt 5)
  <> Ok (PTuple (map PBool [true; false; true; false; false; false; false; false]))
  /\ (forall t, Stations (PInt 5) = Ok (PTuple (map PInt t)) -> repack t <> 5).
Proof.
  split.
  - rewrite Stations_int. discriminate.
  - intros t Ht. rewrite Stations_int in Ht.
    assert (Heq : map PInt (station_masks 5) = map PInt t) by congruence.
    assert (Hinj : forall a b : list Z, map PInt a = map PInt b -> a = b).
    { induction a as [|x a IH]; intros [|y b] Hab; try discriminate.
      - reflexivity.
      - simpl in Hab. injection Hab as Hxy Hrest. f_equal; auto. }
    apply Hinj in Heq. subst t. vm_compute. discriminate.
Qed.

(** C10: for every integer m (the nonnegative ones, 256 and above included)
    the station-status decode returns a tuple of exactly 8 elements, the same
    tuple as for [m mod 256]. *)
Theorem Stations_mod_256 (m : Z) :
  (exists t, Stations (PInt m) = Ok (PTuple t) /\ length t = 8%nat)
  /\ Stations (PInt m) = Stations (PInt (m mod 256)).
Proof.
  split.
  - exists (map PInt (station_masks m)). split; [apply Stations_int | reflexivity].
  - rewrite !Stations_int.
    assert (Heq : station_masks m = station_masks (m mod 256));
      [|rewrite Heq; reflexivity].
    unfold station_masks. apply map_ext_in. intros i Hi.
    assert (Hr : 0 <= i < 8).
    { unfold range8 in Hi. simpl in Hi. lia. }
    rewrite !land_pow2 by lia.
    change 256 with (2 ^ 8). rewrite Z.mod_pow2_bits_low by lia. reflexivity.
Qed.

(** ** External IP *)

Lemma append_assoc (a b c : string) : (a +:+ b) +:+ c = a +:+ (b +:+ c).
Proof.
  induction a as [|x a IH]; [reflexivity|].
  change (String x ((a +:+ b) +:+ c) = String x (a +:+ (b +:+ c))).
  f_equal. exact IH.
Qed.

Lemma append_empty_r (s : string) : s +:+ "" = s.
Proof.
  induction s as [|c s IH]; [reflexivity|].
  change (String c (s +:+ "") = String c s). f_equal. exact IH.
Qed.

(** For a 32-bit [ip] the four components are its bytes, most significant
    first. *)
Lemma ip_components_are_bytes (ip : Z) :
  0 <= ip < 2 ^ 32 ->
  let a := Z.shiftr ip 24 in
  let b := Z.land (Z.shiftr ip 16) 255 in
  let c := Z.land (Z.shiftr ip 8) 255 in
  let d := Z.land ip 255 in
  (0 <= a <= 255 /\ 0 <= b <= 255 /\ 0 <= c <= 255 /\ 0 <= d <= 255)
  /\ ip = a * 2 ^ 24 + b * 2 ^ 16 + c * 2 ^ 8 + d.
Proof.
  intros Hip a b c d. unfold a, b, c, d. clear a b c d.
  change 255 with (Z.ones 8). rewrite !Z.land_ones by lia.
  change (Z.ones 8) with 255.
  rewrite !Z.shiftr_div_pow2 by lia.
  change (2 ^ 32) with 4294967296 in Hip. change (2 ^ 24) with 16777216.
  change (2 ^ 16) with 65536. change (2 ^ 8) with 256.
  replace (ip / 65536) with (ip / 256 / 256)
    by (rewrite Z.div_div by lia; reflexivity).
  replace (ip / 16777216) with (ip / 256 / 256 / 256)
    by (rewrite !Z.div_div by lia; reflexivity).
  Z.to_euclidean_division_equations. lia.
Qed.

(** C7: the external_ip decode of an integer ip is the dotted-quad string
    of [ip>>24], [(ip>>16)&0xFF], [(ip>>8)&0xFF], [ip&0xFF] in this order;
    0x0A0B0C0D gives "10.11.12.13", 0 gives "0.0.0.0" and 0xFFFFFFFF gives
    "255.255.255.255". *)
Theorem IPAddress_dotted_quad `{Runtime} (ip : Z) :
  IPAddress (PInt ip)
  = Ok (PStr (digits (Z.shiftr ip 24) +:+ "."
              +:+ digits (Z.land (Z.shiftr ip 16) 255) +:+ "."
              +:+ digits (Z.land (Z.shiftr ip 8) 255) +:+ "."
              +:+ digits (Z.land ip 255)))
  /\ IPAddress (PInt 0x0A0B0C0D) = Ok (PStr "10.11.12.13")
  /\ IPAddress (PInt 0) = Ok (PStr "0.0.0.0")
  /\ IPAddress (PInt 0xFFFFFFFF) = Ok (PStr "255.255.255.255").
Proof.
  split; [|split; [|split]]; try (vm_compute; reflexivity).
  unfold IPAddress, py_rshift, py_and. cbn [as_int rbind percent_format].
  rewrite append_empty_r. reflexivity.
Qed.

(** ** The response envelope *)

Section Envelope.
Context `{Runtime}.

Lemma base_url (hostname password path : string) :
  percent_format "http://%s/%s/?pw=%s"
    [PStr hostname; PStr path; PStr password]
  = Ok ("http://" +:+ hostname +:+ "/" +:+ path +:+ "/?pw=" +:+ password).
Proof.
  cbn [percent_format rbind py_str]. rewrite append_empty_r. reflexivity.
Qed.

Lemma json_get_run (hostname password path : string) (variables : pyval)
    (st : State) :
  _json_get hostname password path variables st
  = match request_url hostname password path variables with
    | Ok url =>
        (r <-r http_get (requests st) url;; response_outcome r, sent url st)
    | Raise e => (Raise e, st)
    end.
Proof.
  unfold _json_get, request_url. rewrite base_url. cbn [lift bind rbind].
  set (base := "http://" +:+ _).
  assert (Htail : forall url,
    (r <- requests_get url;;
     if negb (status_code r =? 200) then
       raise (ValueError [PStr "Failed GET request with status %d.";
                          PInt (status_code r)])
     else
       retval <- lift (json r);;
       present <- lift (py_contains retval "result");;
       failed <-
         (if present then
            code <- lift (py_getitem retval "result");;
            ret (negb (py_eq_int code STATUS_SUCCESS))
          else ret false);;
       if failed then
         code <- lift (py_getitem retval "result");;
         msg <- lift (STATUS_CODES_getitem code);;
         raise (ValueError [PStr "Failure response (%d):%s"; code; msg])
       else ret retval) st
    = (r <-r http_get (requests st) url;; response_outcome r, sent url st)).
  { intros url. unfold bind, requests_get, response_outcome, sent, lift,
      ret, raise, rbind.
    destruct (http_get (requests st) url) as [r|e]; [|reflexivity].
    destruct (negb (status_code r =? 200)); [reflexivity|].
    destruct (json r) as [retval|e]; [|reflexivity].
    destruct (py_contains retval "result") as [[|]|e]; try reflexivity.
    destruct (py_getitem retval "result") as [code|e]; [|reflexivity].
    destruct (py_eq_int code STATUS_SUCCESS); cbn [negb]; [reflexivity|].
    destruct (STATUS_CODES_getitem code); reflexivity. }
  destruct (py_truth variables).
  - destruct variables; try reflexivity. apply Htail.
  - apply Htail.
Qed.

(** A result code other than 1 that the table lists ends the call in a
    [ValueError] carrying the code and its meaning. *)
Lemma outcome_listed_code (doc : list (string * pyval)) (n : Z) (msg : string) :
  dict_get "result" doc = Some (PInt n) ->
  n <> 1 ->
  status_get n STATUS_CODES = Some msg ->
  response_outcome {| status_code := 200; json := Ok (PDict doc) |}
  = Raise (ValueError [PStr "Failure response (%d):%s"; PInt n; PStr msg]).
Proof.
  intros Hdoc Hn Hmsg. unfold response_outcome.
  cbn [status_code json negb Z.eqb Pos.eqb rbind py_contains py_getitem].
  rewrite Hdoc. cbn [rbind py_eq_int as_int]. unfold STATUS_SUCCESS.
  destruct (Z.eqb_spec n 1) as [|_]; [contradiction|].
  unfold STATUS_CODES_getitem. cbn [hashable as_int]. rewrite Hmsg.
  reflexivity.
Qed.

(** A result code the table does not list ends it in the [KeyError] of
    the table lookup. *)
Lemma outcome_unlisted_code (doc : list (string * pyval)) (n : Z) :
  dict_get "result" doc = Some (PInt n) ->
  n <> 1 ->
  status_get n STATUS_CODES = None ->
  response_outcome {| status_code := 200; json := Ok (PDict doc) |}
  = Raise (KeyError (PInt n)).
Proof.
  intros Hdoc Hn Hmsg. unfold response_outcome.
  cbn [status_code json negb Z.eqb Pos.eqb rbind py_contains py_getitem].
  rewrite Hdoc. cbn [rbind py_eq_int as_int]. unfold STATUS_SUCCESS.
  destruct (Z.eqb_spec n 1) as [|_]; [contradiction|].
  unfold STATUS_CODES_getitem. cbn [hashable as_int]. rewrite Hmsg.
  reflexivity.
Qed.

(** A document without a [result] key, or with result 1, is returned. *)
Lemma outcome_success (doc : list (string * pyval)) :
  (dict_get "result" doc = None \/ dict_get "result" doc = Some (PInt 1)) ->
  response_outcome {| status_code := 200; json := Ok (PDict doc) |}
  = Ok (PDict doc).
Proof.
  intros [Hdoc|Hdoc]; unfold response_outcome;
    cbn [status_code json negb Z.eqb Pos.eqb rbind py_contains py_getitem];
    rewrite Hdoc; reflexivity.
Qed.
End Envelope.

(** C4: on the envelope [{"result": 2}] a get and a set fail with the
    error that carries code 2 and "Unauthorized (e.g. missing password or
    password is incorrect)"; on [{"result": 4}], a code the table does not
    list, both fail with the [KeyError] of the lookup [STATUS_CODES[4]]
    instead of an error that reports the unknown code. *)
Theorem result_code_4_KeyError :
  let device code :=
    fixed_device 200 (Ok (PDict [("result", PInt code)])) noon_2023_11_14 in
  let unauthorized :=
    ValueError [PStr "Failure response (%d):%s"; PInt 2;
                PStr "Unauthorized (e.g. missing password or password is incorrect)"] in
  fst (@__getattr__ (device 2) "enable" (@Controller (device 2) "os.local" "5f4d"))
  = Raise unauthorized
  /\ fst (@__setattr__ (device 2) "rain_delay" PNone
            (@Controller (device 2) "os.local" "5f4d"))
     = Raise unauthorized
  /\ fst (@__getattr__ (device 4) "enable" (@Controller (device 4) "os.local" "5f4d"))
     = Raise (KeyError (PInt 4))
  /\ fst (@__setattr__ (device 4) "rain_delay" PNone
            (@Controller (device 4) "os.local" "5f4d"))
     = Raise (KeyError (PInt 4)).
Proof.
  repeat split; vm_compute; reflexivity.
Qed.

(** ** Reading a status document *)

(** The fields of [{"devt": 1700000000, "nbrd": 2, "en": 1, "sbits": 5}],
    each read with a request of its own. *)
Lemma status_document_reads :
  let doc := [("devt", PInt 1700000000); ("nbrd", PInt 2); ("en", PInt 1);
              ("sbits", PInt 5)] in
  let device := fixed_device 200 (Ok (PDict doc)) noon_2023_11_14 in
  let st := Controller "os.local" "5f4d" in
  let st' := sent "http://os.local/jc/?pw=5f4d" st in
  getattr "device_time" st = (Ok (PDateTime (EPOCH + 1700000000 * 1000000)), st')
  /\ getattr "board_count" st = (Ok (PInt 2), st')
  /\ getattr "enable" st = (Ok (PBool true), st')
  /\ getattr "station_status" st
     = (Ok (PTuple (map PInt [1; 0; 4; 0; 0; 0; 0; 0])), st')
  /\ getattr "sunrise" st = (Raise (KeyError (PStr "sunrise")), st')
  /\ getattr "parent" st = (Ok (PSprinkler "os.local" "5f4d"), st).
Proof. repeat split; vm_compute; reflexivity. Qed.

(** ** Assignment to a registered name *)

Section SetValue.
Context `{Runtime}.

(** The value assigned plays no part in what a registered name sends. *)
Lemma setattr_value_unused (name : string) (v v' : pyval) (st : State) :
  registered name my_set_args = true ->
  __setattr__ name v st = __setattr__ name v' st.
Proof.
  unfold registered, __setattr__.
  destruct (registry_get name my_set_args); [reflexivity | discriminate].
Qed.

(** The four names whose transform is [int] never get as far as a request:
    [int] of the empty payload dict raises. *)
Lemma setattr_int_names_raise (name : string) (v : pyval) (st : State) :
  name = "reset_all" \/ name = "reboot" \/ name = "enable"
  \/ name = "remote_extension" ->
  __setattr__ name v st = (Raise TypeError, st).
Proof.
  intros [->|[->|[->| ->]]]; reflexivity.
Qed.

(** [rain_delay] always sends [rd=0]. *)
Lemma setattr_rain_delay_sends_zero (hostname password : string) (v : pyval)
    (st : State) :
  attrs st !! "parent" = Some (PSprinkler hostname password) ->
  requests (snd (__setattr__ "rain_delay" v st))
  = requests st
    ++ ["http://" +:+ hostname +:+ "/cv/?pw=" +:+ password +:+ "&rd=0"].
Proof.
  intros Hparent. unfold __setattr__.
  change (registry_get "rain_delay" my_set_args)
    with (Some {| _tag := "rd"; _type := RainDelaySet |}).
  unfold bind, setAsType, bind, RainDelaySet, self_parent.
  cbn [py_truth negb ret lift py_setitem dict_set _type _tag].
  rewrite Hparent. cbn [default id call_json_get]. rewrite json_get_run.
  unfold request_url. rewrite base_url.
  cbn [rbind py_truth query_loop py_str].
  destruct (r <-r http_get (requests st) _;; response_outcome r);
    cbn [snd sent requests]; f_equal; f_equal;
    rewrite !append_assoc; reflexivity.
Qed.
End SetValue.

(** C2: [controller.enable = 1] applies [int] to the empty payload dict,
    not to 1: it raises [TypeError] and sends nothing; and whatever value is
    assigned to [rain_delay], the payload sent to the command endpoint is
    [{rd: 0}], the encoding of the empty dict. *)
Theorem setattr_encodes_the_payload_dict :
  let device :=
    fixed_device 200 (Ok (PDict [("result", PInt 1)])) noon_2023_11_14 in
  let st := Controller "os.local" "5f4d" in
  __setattr__ "enable" (PInt 1) st = (Raise TypeError, st)
  /\ (forall v : pyval,
        __setattr__ "rain_delay" v st
        = (Ok PNone, sent "http://os.local/cv/?pw=5f4d&rd=0" st))
  /\ setAsType {| _tag := "rd"; _type := RainDelaySet |}
       (PDict []) st
     = (Ok (PDict [("rd", PInt 0)]), st).
Proof.
  split; [vm_compute; reflexivity|].
  split; [intros v; vm_compute; reflexivity | vm_compute; reflexivity].
Qed.

(** ** Names outside the registries *)

Lemma object_setattr_ordinary `{Runtime} (name : string) (v : pyval)
    (st : State) :
  object_reserved name = false ->
  object_setattr name v st
  = (Ok PNone,
     {| attrs := <[name := v]> (attrs st); requests := requests st;
        clock_reads := clock_reads st |}).
Proof.
  unfold object_reserved, object_setattr. intros Hname.
  destruct (String.eqb name "__class__"); [discriminate|].
  destruct (String.eqb name "__dict__"); [discriminate|].
  destruct (String.eqb name "__weakref__"); [discriminate|]. reflexivity.
Qed.

(** C3 (as amended): on a Controller whose instance dictionary does not
    rebind [my_get_args] or [my_set_args], a name that is no key of the Get
    registry makes [__getattr__] return [None] without a request, and a name
    that is no key of the Set registry, other than [__class__], [__dict__]
    and [__weakref__] (which [object.__setattr__] serves itself), makes
    [__setattr__] store the value in the instance dictionary without a
    request; neither raises. *)
Theorem unregistered_name_no_error `{Runtime}
    (name : string) (v : pyval) (st : State) :
  unshadowed st ->
  (registered name my_get_args = false ->
     __getattr__ name st = (Ok PNone, st))
  /\ (registered name my_set_args = false ->
      object_reserved name = false ->
        __setattr__ name v st
        = (Ok PNone,
           {| attrs := <[name := v]> (attrs st); requests := requests st;
              clock_reads := clock_reads st |})).
Proof.
  intros _. unfold registered, __getattr__, __setattr__. split; intros Hreg.
  - destruct (registry_get name my_get_args); [discriminate | reflexivity].
  - intros Hname.
    destruct (registry_get name my_set_args); [discriminate|].
    apply object_setattr_ordinary. exact Hname.
Qed.

Lemma unregistered_name_no_error_zone :
  let device := fixed_device 200 (Ok (PDict [])) noon_2023_11_14 in
  let st := Controller "os.local" "5f4d" in
  unshadowed st
  /\ registered "zone" my_get_args = false
  /\ registered "zone" my_set_args = false
  /\ object_reserved "zone" = false
  /\ __getattr__ "zone" st = (Ok PNone, st)
  /\ __setattr__ "zone" (PInt 3) st
     = (Ok PNone,
        {| attrs := <["zone" := PInt 3]> (attrs st); requests := requests st;
           clock_reads := clock_reads st |}).
Proof.
  intros device st.
  assert (Hclass : unshadowed st) by (split; vm_compute; reflexivity).
  destruct (unregistered_name_no_error "zone" (PInt 3) st Hclass) as [Hg Hs].
  split; [exact Hclass|]. split; [reflexivity|]. split; [reflexivity|].
  split; [reflexivity|].
  split; [apply Hg; reflexivity | apply Hs; reflexivity].
Defined.

(** What [object.__setattr__] does under its reserved names, on any
    Controller: [__class__] and [__weakref__] raise and change nothing, and
    [__dict__] replaces the instance dictionary by the dict assigned. *)
Lemma setattr_reserved_names `{Runtime} (v : pyval)
    (d : list (string * pyval)) (st : State) :
  __setattr__ "__class__" v st = (Raise TypeError, st)
  /\ __setattr__ "__weakref__" v st = (Raise AttributeError, st)
  /\ __setattr__ "__dict__" (PInt 5) st = (Raise TypeError, st)
  /\ __setattr__ "__dict__" (PDict d) st
     = (Ok PNone,
        {| attrs := list_to_map d; requests := requests st;
           clock_reads := clock_reads st |}).
Proof. repeat split; reflexivity. Qed.

(** C3, as stated, fails: reading the unregistered name [zone] returns
    [None], and assigning to it succeeds; no error is raised. *)
Lemma unregistered_zone_not_raised :
  let device := fixed_device 200 (Ok (PDict [])) noon_2023_11_14 in
  let st := Controller "os.local" "5f4d" in
  fst (__getattr__ "zone" st) = Ok PNone
  /\ fst (__setattr__ "zone" (PInt 3) st) = Ok PNone
  /\ ~ (exists e, fst (__getattr__ "zone" st) = Raise e)
  /\ ~ (exists e, fst (__setattr__ "zone" (PInt 3) st) = Raise e).
Proof.
  repeat split; try (vm_compute; reflexivity);
    intros [e He]; vm_compute in He; discriminate.
Qed.

(** ** A document without the wire key *)

(** C8: when the document fetched for a registered name holds no entry
    for the descriptor's wire key, the read raises [KeyError] with that key
    and returns nothing. *)
Theorem getattr_missing_key `{Runtime}
    (name : string) (fd : FieldDescriptor) (hostname password : string)
    (doc : list (string * pyval)) (st st' : State) :
  registry_get name my_get_args = Some fd ->
  attrs st !! "parent" = Some (PSprinkler hostname password) ->
  _json_get hostname password "jc" PNone st = (Ok (PDict doc), st') ->
  dict_get (_tag fd) doc = None ->
  __getattr__ name st = (Raise (KeyError (PStr (_tag fd))), st').
Proof.
  intros Hreg Hparent Hfetch Hkey. unfold __getattr__. rewrite Hreg.
  unfold bind, self_parent. rewrite Hparent.
  cbn [default id call_json_get]. rewrite Hfetch.
  unfold getAsType, bind, lift. cbn [py_getitem]. rewrite Hkey. reflexivity.
Qed.

Lemma getattr_missing_key_enable :
  let device :=
    fixed_device 200 (Ok (PDict [("nbrd", PInt 2)])) noon_2023_11_14 in
  let st := Controller "os.local" "5f4d" in
  __getattr__ "enable" st
  = (Raise (KeyError (PStr "en")), sent "http://os.local/jc/?pw=5f4d" st).
Proof.
  intros device st.
  apply (getattr_missing_key "enable"
           {| _tag := "en"; _type := pure py_bool |}
           "os.local" "5f4d" [("nbrd", PInt 2)]).
  - reflexivity.
  - vm_compute. reflexivity.
  - vm_compute. reflexivity.
  - reflexivity.
Defined.

(** ** What an assignment leaves on the object *)

Section Footprint.
Context `{Runtime}.

Lemma keeps_attrs_bind {A B} (m : M A) (k : A -> M B) :
  keeps_attrs m -> (forall a, keeps_attrs (k a)) -> keeps_attrs (bind m k).
Proof.
  intros Hm Hk st. unfold bind. specialize (Hm st).
  destruct (m st) as [[a|e] st1]; cbn [snd] in *.
  - rewrite Hk. exact Hm.
  - exact Hm.
Qed.

Lemma keeps_requests_bind {A B} (m : M A) (k : A -> M B) :
  keeps_requests m -> (forall a, keeps_requests (k a)) ->
  keeps_requests (bind m k).
Proof.
  intros Hm Hk st. unfold bind. specialize (Hm st).
  destruct (m st) as [[a|e] st1]; cbn [snd] in *.
  - rewrite Hk. exact Hm.
  - exact Hm.
Qed.

Lemma keeps_attrs_lift {A} (r : result A) : keeps_attrs (lift r).
Proof. intros st. reflexivity. Qed.

Lemma keeps_requests_lift {A} (r : result A) : keeps_requests (lift r).
Proof. intros st. reflexivity. Qed.

Lemma keeps_attrs_ret {A} (a : A) : keeps_attrs (ret a).
Proof. intros st. reflexivity. Qed.

Lemma keeps_requests_ret {A} (a : A) : keeps_requests (ret a).
Proof. intros st. reflexivity. Qed.

Lemma keeps_attrs_raise {A} (e : exn) : keeps_attrs (@raise A e).
Proof. intros st. reflexivity. Qed.

Lemma keeps_requests_raise {A} (e : exn) : keeps_requests (@raise A e).
Proof. intros st. reflexivity. Qed.

Lemma keeps_attrs_now : keeps_attrs datetime_now.
Proof. intros st. reflexivity. Qed.

Lemma keeps_requests_now : keeps_requests datetime_now.
Proof. intros st. reflexivity. Qed.

Lemma keeps_attrs_self_parent : keeps_attrs self_parent.
Proof. intros st. reflexivity. Qed.

Lemma keeps_attrs_SunTime (v : pyval) : keeps_attrs (SunTime v).
Proof.
  unfold SunTime. destruct (py_eq_int v 0); [apply keeps_attrs_ret|].
  repeat (apply keeps_attrs_bind; [first [apply keeps_attrs_now
                                        | apply keeps_attrs_lift]|intros ?]).
  apply keeps_attrs_ret.
Qed.

Lemma keeps_requests_SunTime (v : pyval) : keeps_requests (SunTime v).
Proof.
  unfold SunTime. destruct (py_eq_int v 0); [apply keeps_requests_ret|].
  repeat (apply keeps_requests_bind; [first [apply keeps_requests_now
                                           | apply keeps_requests_lift]|intros ?]).
  apply keeps_requests_ret.
Qed.

Lemma keeps_attrs_RainDelaySet (v : pyval) : keeps_attrs (RainDelaySet v).
Proof.
  unfold RainDelaySet. destruct (negb (py_truth v)); [apply keeps_attrs_ret|].
  apply keeps_attrs_bind; [apply keeps_attrs_now|intros now].
  destruct v; try apply keeps_attrs_raise.
  apply keeps_attrs_bind; [apply keeps_attrs_lift|intros ?].
  apply keeps_attrs_ret.
Qed.

Lemma keeps_attrs_json_get (hostname password path : string) (vars : pyval) :
  keeps_attrs (_json_get hostname password path vars).
Proof.
  intros st. rewrite json_get_run.
  destruct (request_url hostname password path vars); reflexivity.
Qed.

Lemma keeps_attrs_call_json_get (obj : pyval) (path : string) (vars : pyval) :
  keeps_attrs (call_json_get obj path vars).
Proof.
  destruct obj; try apply keeps_attrs_raise. apply keeps_attrs_json_get.
Qed.

(** Every transform of the two registries leaves the instance dictionary
    alone, and those of the Get registry send nothing. *)
Lemma get_types_footprint (name : string) (fd : FieldDescriptor) (v : pyval) :
  registry_get name my_get_args = Some fd ->
  keeps_attrs (_type fd v) /\ keeps_requests (_type fd v).
Proof.
  unfold my_get_args. cbn [registry_get].
  repeat (destruct (String.eqb name _);
          [intros [= <-]; cbn [_type]; split;
           first [apply keeps_attrs_SunTime | apply keeps_requests_SunTime
                 | apply keeps_attrs_lift | apply keeps_requests_lift]|]).
  discriminate.
Qed.

Lemma set_types_footprint (name : string) (fd : FieldDescriptor) (v : pyval) :
  registry_get name my_set_args = Some fd -> keeps_attrs (_type fd v).
Proof.
  unfold my_set_args. cbn [registry_get].
  repeat (destruct (String.eqb name _);
          [intros [= <-]; cbn [_type];
           first [apply keeps_attrs_RainDelaySet | apply keeps_attrs_lift]|]).
  discriminate.
Qed.

Lemma keeps_attrs_getattr_method (name : string) :
  keeps_attrs (__getattr__ name).
Proof.
  unfold __getattr__.
  destruct (registry_get name my_get_args) as [fd|] eqn:Hreg;
    [|apply keeps_attrs_ret].
  apply keeps_attrs_bind; [apply keeps_attrs_self_parent|intros parent].
  apply keeps_attrs_bind; [apply keeps_attrs_call_json_get|intros data].
  unfold getAsType.
  apply keeps_attrs_bind; [apply keeps_attrs_lift|intros v].
  apply (get_types_footprint name fd v Hreg).
Qed.

Lemma keeps_attrs_getattr (name : string) : keeps_attrs (getattr name).
Proof.
  intros st. unfold getattr. destruct (attrs st !! name); [reflexivity|].
  destruct (existsb (String.eqb name) class_namespace); [reflexivity|].
  apply keeps_attrs_getattr_method.
Qed.

Lemma setattr_registered_keeps_attrs (name : string) (v : pyval) :
  registered name my_set_args = true -> keeps_attrs (__setattr__ name v).
Proof.
  unfold registered, __setattr__.
  destruct (registry_get name my_set_args) as [fd|] eqn:Hreg; [|discriminate].
  intros _. unfold setAsType.
  apply keeps_attrs_bind.
  - apply keeps_attrs_bind;
      [apply (set_types_footprint name fd _ Hreg)|intros ?].
    apply keeps_attrs_lift.
  - intros data.
    apply keeps_attrs_bind; [apply keeps_attrs_self_parent|intros parent].
    apply keeps_attrs_bind; [apply keeps_attrs_call_json_get|intros ?].
    apply keeps_attrs_ret.
Qed.

Lemma setattr_unregistered (name : string) (v : pyval) (st : State) :
  registered name my_set_args = false ->
  object_reserved name = false ->
  __setattr__ name v st
  = (Ok PNone,
     {| attrs := <[name := v]> (attrs st); requests := requests st;
        clock_reads := clock_reads st |}).
Proof.
  unfold registered, __setattr__. intros Hreg Hname.
  destruct (registry_get name my_set_args); [discriminate|].
  apply object_setattr_ordinary. exact Hname.
Qed.

(** A new object, before [__init__] runs, has a clean instance
    dictionary; reads keep it clean, and so does every assignment but one to
    [__dict__], [my_get_args] or [my_set_args]. *)
Lemma clean_instance_new (urls : list string) (ticks : nat) :
  clean_instance {| attrs := ∅; requests := urls; clock_reads := ticks |}.
Proof.
  split; [split|intros name _]; apply lookup_empty.
Qed.

Lemma clean_instance_getattr (name : string) (st : State) :
  clean_instance st -> clean_instance (snd (getattr name st)).
Proof.
  unfold clean_instance, unshadowed.
  rewrite (keeps_attrs_getattr name st). intros Hclean. exact Hclean.
Qed.

Lemma clean_instance_setattr (name : string) (v : pyval) (st : State) :
  name <> "__dict__" -> name <> "my_get_args" -> name <> "my_set_args" ->
  clean_instance st -> clean_instance (snd (setattr name v st)).
Proof.
  intros Hdict Hget Hset Hclean. unfold setattr.
  destruct (registered name my_set_args) eqn:Hreg.
  - unfold clean_instance, unshadowed.
    rewrite (setattr_registered_keeps_attrs name v Hreg st). exact Hclean.
  - destruct (object_reserved name) eqn:Hres.
    + assert (Hst : snd (__setattr__ name v st) = st); [|rewrite Hst; exact Hclean].
      unfold registered in Hreg. unfold __setattr__.
      destruct (registry_get name my_set_args); [discriminate|].
      unfold object_reserved in Hres. unfold object_setattr.
      destruct (String.eqb name "__class__"); [reflexivity|].
      destruct (String.eqb_spec name "__dict__") as [|_]; [contradiction|].
      destruct (String.eqb name "__weakref__"); [reflexivity | discriminate].
    + rewrite (setattr_unregistered name v st Hreg Hres). cbn [snd].
      destruct Hclean as [[Hg Hs] Hnone].
      unfold clean_instance, unshadowed. cbn [attrs].
      rewrite !lookup_insert_ne by congruence.
      split; [split; assumption|].
      intros name' Hname'. rewrite lookup_insert_ne; [auto|].
      intros ->. congruence.
Qed.

Lemma request_url_no_variables (hostname password path : string) :
  request_url hostname password path PNone
  = Ok ("http://" +:+ hostname +:+ "/" +:+ path +:+ "/?pw=" +:+ password).
Proof. unfold request_url. rewrite base_url. reflexivity. Qed.

(** Reading a Get-registry name through [__getattr__] sends exactly one
    request, to the status endpoint. *)
Lemma getattr_method_fetches (name : string) (hostname password : string)
    (st : State) :
  registered name my_get_args = true ->
  attrs st !! "parent" = Some (PSprinkler hostname password) ->
  requests (snd (__getattr__ name st))
  = requests st ++ ["http://" +:+ hostname +:+ "/jc/?pw=" +:+ password].
Proof.
  unfold registered, __getattr__.
  destruct (registry_get name my_get_args) as [fd|] eqn:Hreg; [|discriminate].
  intros _ Hparent. unfold bind, self_parent. rewrite Hparent.
  cbn [default id call_json_get]. rewrite json_get_run.
  rewrite request_url_no_variables.
  destruct (r <-r http_get (requests st) _;; response_outcome r)
    as [data|e]; [|reflexivity].
  unfold getAsType.
  rewrite (keeps_requests_bind (lift (py_getitem data (_tag fd))) (_type fd)).
  - reflexivity.
  - apply keeps_requests_lift.
  - intros v. apply (get_types_footprint name fd v Hreg).
Qed.
End Footprint.

(** C9 (as amended): on a Controller whose instance dictionary does not
    rebind [my_get_args] or [my_set_args], assigning to a Set-registry name
    leaves the instance dictionary as it was, whether the assignment succeeds
    or raises; so when the instance dictionary does not hold that name and the
    name is also in the Get registry, the next read of it is answered by
    [__getattr__], with one new request to the status endpoint.  Assigning to
    a name outside the Set registry, other than [__class__], [__dict__] and
    [__weakref__], stores the value in the instance dictionary, where the
    next read finds it. *)
Theorem setattr_registered_not_stored `{Runtime}
    (st : State) (name : string) (v : pyval) :
  unshadowed st ->
  let st' := snd (setattr name v st) in
  (registered name my_set_args = true ->
     attrs st' = attrs st
     /\ (attrs st !! name = None ->
         registered name my_get_args = true ->
           getattr name st' = __getattr__ name st'
           /\ forall hostname password,
                attrs st !! "parent" = Some (PSprinkler hostname password) ->
                requests (snd (getattr name st'))
                = requests st'
                  ++ ["http://" +:+ hostname +:+ "/jc/?pw=" +:+ password]))
  /\ (registered name my_set_args = false ->
      object_reserved name = false ->
        attrs st' = <[name := v]> (attrs st)
        /\ getattr name st' = (Ok v, st')).
Proof.
  intros _ st'. split.
  - intros Hset.
    assert (Hattrs : attrs st' = attrs st)
      by apply (setattr_registered_keeps_attrs name v Hset st).
    split; [exact Hattrs|].
    intros Habsent Hget.
    assert (Hnone : attrs st' !! name = None) by (rewrite Hattrs; exact Habsent).
    assert (Hread : getattr name st' = __getattr__ name st').
    { unfold getattr. rewrite Hnone.
      unfold registered in Hset. revert Hset.
      unfold my_set_args. cbn [registry_get].
      repeat match goal with
             | |- context [String.eqb name ?k] =>
                 destruct (String.eqb_spec name k) as [->|_];
                 [intros _; reflexivity|]
             end.
      discriminate. }
    split; [exact Hread|].
    intros hostname password Hparent. rewrite Hread.
    apply getattr_method_fetches; [exact Hget|].
    rewrite Hattrs. exact Hparent.
  - intros Hset Hname. unfold st', setattr.
    rewrite (setattr_unregistered name v st Hset Hname). cbn [snd attrs].
    split; [reflexivity|].
    unfold getattr. cbn [attrs]. rewrite lookup_insert_eq. reflexivity.
Qed.

Lemma setattr_registered_not_stored_enable :
  let device :=
    fixed_device 200 (Ok (PDict [("en", PInt 1)])) noon_2023_11_14 in
  let st := Controller "os.local" "5f4d" in
  let st' := snd (setattr "enable" (PInt 0) st) in
  let st'' := snd (setattr "zone" (PInt 3) st) in
  clean_instance st
  /\ attrs st' = attrs st
  /\ getattr "enable" st' = __getattr__ "enable" st'
  /\ requests (snd (getattr "enable" st'))
     = requests st' ++ ["http://os.local/jc/?pw=5f4d"]
  /\ getattr "enable" st' = (Ok (PBool true), sent "http://os.local/jc/?pw=5f4d" st')
  /\ attrs st'' = <["zone" := PInt 3]> (attrs st)
  /\ getattr "zone" st'' = (Ok (PInt 3), st'').
Proof.
  intros device st st' st''.
  assert (Hclean : clean_instance st).
  { unfold st, Controller, __init__.
    apply (clean_instance_setattr "parent" _ new_object); try discriminate.
    apply clean_instance_new. }
  destruct Hclean as [Hclass Hnone].
  destruct (setattr_registered_not_stored st "enable" (PInt 0) Hclass)
    as [Hin _].
  destruct (setattr_registered_not_stored st "zone" (PInt 3) Hclass)
    as [_ Hout].
  destruct (Hin eq_refl) as (Hattrs & Hboth).
  destruct (Hboth (Hnone "enable" eq_refl) eq_refl) as [Hread Hfetch].
  destruct (Hout eq_refl eq_refl) as [Hstored Hfound].
  split; [split; assumption|]. split; [exact Hattrs|].
  split; [exact Hread|].
  split; [apply (Hfetch "os.local" "5f4d"); vm_compute; reflexivity|].
  split; [vm_compute; reflexivity|].
  split; [exact Hstored | exact Hfound].
Defined.

(** C9, as stated, fails on a Controller whose instance dictionary was
    replaced through [__dict__] by one that holds [enable]: the assignment
    [enable = 0] (which raises [TypeError], and sends nothing) is followed by
    a read of [enable] that returns the stored 5, without going through
    [__getattr__] and without a request. *)
Lemma replaced_dict_read_not_fetched :
  let device :=
    fixed_device 200 (Ok (PDict [("en", PInt 1)])) noon_2023_11_14 in
  let st0 := Controller "os.local" "5f4d" in
  let st1 :=
    snd (setattr "__dict__"
           (PDict [("parent", PSprinkler "os.local" "5f4d");
                   ("enable", PInt 5)]) st0) in
  let st2 := snd (setattr "enable" (PInt 0) st1) in
  registered "enable" my_set_args = true
  /\ registered "enable" my_get_args = true
  /\ attrs st2 !! "enable" = Some (PInt 5)
  /\ getattr "enable" st2 = (Ok (PInt 5), st2)
  /\ requests (snd (getattr "enable" st2)) = requests st2
  /\ getattr "enable" st2 <> __getattr__ "enable" st2.
Proof.
  repeat split; try (vm_compute; reflexivity).
  vm_compute. discriminate.
Qed.

(** ** Sunrise and sunset *)

Lemma replace_midnight_spec (now : Z) :
  replace_midnight now mod DAY = 0
  /\ replace_midnight now <= now < replace_midnight now + DAY.
Proof.
  unfold replace_midnight, DAY.
  pose proof (Z.mod_pos_bound now (86400 * 1000000) ltac:(lia)) as Hm.
  split; [|lia].
  rewrite Zminus_mod, Z.mod_mod, Z.sub_diag by lia. reflexivity.
Qed.

(** C6 (as amended): the decode maps 0 to [None]; for a nonzero integer N
    it reads the clock once and, with [midnight] the start of the current day,
    returns the date-time [midnight + 24 h - N min] when that instant and
    [midnight + 24 h] are representable date-times (years 1 to 9999), and
    raises [OverflowError] otherwise; for N = 360 the instant is 6 hours
    before [midnight + 24 h]. *)
Theorem SunTime_decode `{Runtime} (N : Z) (st : State) :
  N <> 0 ->
  let now := wall_clock (clock_reads st) in
  let midnight := replace_midnight now in
  SunTime (PInt 0) st = (Ok PNone, st)
  /\ (midnight mod DAY = 0 /\ midnight <= now < midnight + DAY)
  /\ SunTime (PInt N) st
     = (if valid_datetime (midnight + DAY)
           && valid_datetime (midnight + DAY - N * MINUTE)
        then Ok (PDateTime (midnight + DAY - N * MINUTE))
        else Raise OverflowError,
        ticked st)
  /\ (N = 360 ->
      midnight + DAY - N * MINUTE = (midnight + DAY) - 6 * 3600 * 1000000).
Proof.
  intros HN now midnight.
  split; [reflexivity|]. split; [apply replace_midnight_spec|].
  split; [|intros ->; unfold MINUTE; lia].
  unfold SunTime. cbn [py_eq_int as_int].
  destruct (Z.eqb_spec N 0) as [|_]; [contradiction|].
  unfold bind, datetime_now, lift, ret. fold now. fold midnight. fold (ticked st).
  assert (Hday : timedelta DAY = Ok DAY) by reflexivity.
  rewrite Hday. unfold datetime_add.
  destruct (valid_datetime (midnight + DAY)) eqn:Hv1; cbn [andb]; [|reflexivity].
  unfold timedelta_minutes. cbn [as_int]. unfold timedelta, datetime_sub.
  destruct (valid_datetime (midnight + DAY - N * MINUTE)) eqn:Hv2.
  - assert (Hv3 : valid_timedelta (N * MINUTE) = true).
    { unfold valid_datetime, valid_timedelta, MAXORDINAL, DAY, MINUTE in *. lia. }
    rewrite Hv3, Hv2. reflexivity.
  - destruct (valid_timedelta (N * MINUTE)); [rewrite Hv2|]; reflexivity.
Qed.

Lemma SunTime_decode_360 :
  let device := fixed_device 200 (Ok (PDict [])) noon_2023_11_14 in
  let st := Controller "os.local" "5f4d" in
  SunTime (PInt 0) st = (Ok PNone, st)
  /\ SunTime (PInt 360) st
     = (Ok (PDateTime (738838 * DAY - 6 * 3600 * 1000000)), ticked st).
Proof.
  intros device st.
  assert (H360 : 360 <> 0) by lia.
  destruct (SunTime_decode 360 st H360) as (H0 & _ & HN & _).
  split; [exact H0|]. rewrite HN. vm_compute. reflexivity.
Defined.

(** C6, as stated, fails for N = 10 ^ 10: about 19000 years before the
    next midnight there is no date-time, and the decode raises
    [OverflowError] instead of yielding one. *)
Lemma SunTime_out_of_range :
  let device := fixed_device 200 (Ok (PDict [])) noon_2023_11_14 in
  let st := Controller "os.local" "5f4d" in
  SunTime (PInt (10 ^ 10)) st = (Raise OverflowError, ticked st)
  /\ ~ (exists t, fst (SunTime (PInt (10 ^ 10)) st) = Ok (PDateTime t)).
Proof.
  intros device st.
  assert (Hrun : SunTime (PInt (10 ^ 10)) st = (Raise OverflowError, ticked st))
    by (vm_compute; reflexivity).
  split; [exact Hrun|]. intros [t Ht]. rewrite Hrun in Ht. discriminate.
Qed.

(** ** Rain delay: the float quotient *)

(** On sample durations the rounding agrees, bit for bit, with the Standard
    Library's IEEE 754 division: first microseconds by [10 ^ 6], then the
    resulting seconds by 60. *)
Lemma round_binary64_matches_reference :
  forallb
    (fun us =>
       let secs := total_seconds us in
       let mins := float_div_int secs 60 in
       let secs' := SFdiv 53 1024 (binary64_of_Z us) (binary64_of_Z 1000000) in
       let mins' := SFdiv 53 1024 secs' (binary64_of_Z 60) in
       (fmant secs =? fmant (float_of_spec secs'))
       && (fexp secs =? fexp (float_of_spec secs'))
       && (fmant mins =? fmant (float_of_spec mins'))
       && (fexp mins =? fexp (float_of_spec mins')))
    [1; 7; 999999; 1000001; 59999999; 60000000; 5399999999; 5400000000;
     -1; -5399999999; 86400000000; 4026531839999999; 8999999999999999]
  = true.
Proof. vm_compute. reflexivity. Qed.

Lemma pow2_split (a b : Z) :
  0 <= a <= b -> 2 ^ b = 2 ^ a * 2 ^ (b - a) /\ 1 <= 2 ^ (b - a).
Proof.
  intros Hab. split.
  - rewrite <- Z.pow_add_r by lia. f_equal. lia.
  - pose proof (Z.pow_pos_nonneg 2 (b - a)). lia.
Qed.

Lemma pow2_split_lt (a b : Z) :
  0 <= a < b -> 2 ^ b = 2 ^ a * 2 ^ (b - a) /\ 2 <= 2 ^ (b - a).
Proof.
  intros Hab. split; [apply pow2_split; lia|].
  change 2 with (2 ^ 1) at 1. apply Z.pow_le_mono_r; lia.
Qed.

Lemma round_half_even_lower (n d M : Z) :
  0 < d -> M * d <= n -> M <= round_half_even n d.
Proof.
  intros Hd Hn. unfold round_half_even.
  assert (Hq : M <= n / d) by (apply Z.div_le_lower_bound; lia).
  destruct (2 * (n mod d) ?= d); [destruct (Z.even (n / d))| |]; lia.
Qed.

Lemma round_half_even_upper (n d M : Z) :
  0 < d -> n <= M * d -> round_half_even n d <= M.
Proof.
  intros Hd Hn. unfold round_half_even.
  pose proof (Z.div_mod n d ltac:(lia)) as Hdm.
  pose proof (Z.mod_pos_bound n d Hd) as Hr.
  destruct (Z.compare_spec (2 * (n mod d)) d) as [He|Hl|Hg].
  - assert (n / d < M) by nia. destruct (Z.even (n / d)); lia.
  - assert (n / d <= M) by nia. lia.
  - assert (n / d < M) by nia. lia.
Qed.

Lemma round_half_even_below_mid (n d M : Z) :
  0 < d -> 2 * n < (2 * M + 1) * d -> round_half_even n d <= M.
Proof.
  intros Hd Hn. unfold round_half_even.
  pose proof (Z.div_mod n d ltac:(lia)) as Hdm.
  pose proof (Z.mod_pos_bound n d Hd) as Hr.
  destruct (Z.compare_spec (2 * (n mod d)) d) as [He|Hl|Hg].
  - assert (n / d < M) by nia. destruct (Z.even (n / d)); lia.
  - assert (n / d <= M) by nia. lia.
  - assert (n / d < M) by nia. lia.
Qed.

(** A positive quotient in the normal range below [2 ^ 52] is rounded on
    the grid [2 ^ (- p)] that gives it 53 significant bits. *)
Lemma round_binary64_pos_grid (n d : Z) :
  0 < n -> 0 < d -> d <= n * 2 ^ 1022 -> n < d * 2 ^ 52 ->
  exists p,
    0 < p <= 1074
    /\ 2 ^ 52 * d <= n * 2 ^ p < 2 ^ 53 * d
    /\ round_binary64_pos n d
       = {| fmant := round_half_even (n * 2 ^ p) d; fexp := - p |}.
Proof.
  intros Hn Hd Hlo Hhi.
  set (a := n * 2 ^ 1100 / d).
  assert (H78 : 2 ^ 1100 = 2 ^ 1022 * 2 ^ 78) by (rewrite <- Z.pow_add_r by lia; reflexivity).
  assert (H52 : 2 ^ 1152 = 2 ^ 52 * 2 ^ 1100) by (rewrite <- Z.pow_add_r by lia; reflexivity).
  assert (Hp78 : 0 < 2 ^ 78) by (apply Z.pow_pos_nonneg; lia).
  assert (Hp1100 : 0 < 2 ^ 1100) by (apply Z.pow_pos_nonneg; lia).
  assert (Ha_lo : 2 ^ 78 <= a).
  { apply Z.div_le_lower_bound; [lia|]. rewrite H78. nia. }
  assert (Ha_hi : a < 2 ^ 1152).
  { apply Z.div_lt_upper_bound; [lia|]. rewrite H52. nia. }
  destruct (Z.log2_spec a ltac:(lia)) as [HL1 HL2].
  set (L := Z.log2 a) in *.
  assert (HL78 : 78 <= L).
  { apply Z.log2_le_pow2; lia. }
  assert (HL1152 : L < 1152).
  { apply Z.log2_lt_pow2; lia. }
  exists (1152 - L).
  assert (Hsplit : 2 ^ 1100 = 2 ^ (1152 - L) * 2 ^ (L - 52)).
  { rewrite <- Z.pow_add_r by lia. f_equal. lia. }
  assert (HLs : 2 ^ L = 2 ^ 52 * 2 ^ (L - 52)).
  { rewrite <- Z.pow_add_r by lia. f_equal. lia. }
  assert (HLs1 : 2 ^ Z.succ L = 2 ^ 53 * 2 ^ (L - 52)).
  { rewrite <- Z.pow_add_r by lia. f_equal. lia. }
  assert (Hpos : 0 < 2 ^ (L - 52)) by (apply Z.pow_pos_nonneg; lia).
  assert (Hpp : 0 < 2 ^ (1152 - L)) by (apply Z.pow_pos_nonneg; lia).
  assert (Hmul_lo : 2 ^ L * d <= n * 2 ^ 1100).
  { unfold a in HL1.
    pose proof (Z.mul_div_le (n * 2 ^ 1100) d Hd). nia. }
  assert (Hmul_hi : n * 2 ^ 1100 < 2 ^ Z.succ L * d).
  { unfold a in HL2.
    pose proof (Z.mul_succ_div_gt (n * 2 ^ 1100) d Hd). nia. }
  split; [lia|]. split.
  - rewrite HLs, Hsplit in Hmul_lo. rewrite HLs1, Hsplit in Hmul_hi.
    split.
    + apply (Z.mul_le_mono_pos_r _ _ (2 ^ (L - 52)) Hpos). lia.
    + apply (Z.mul_lt_mono_pos_r (2 ^ (L - 52)) _ _ Hpos). lia.
  - unfold round_binary64_pos, ilog2_ratio. fold a. fold L.
    replace (Z.max (L - 1100) (-1022) - 52) with (- (1152 - L)) by lia.
    unfold scaled_num, scaled_den.
    rewrite Z.opp_involutive.
    replace (Z.max 0 (1152 - L)) with (1152 - L) by lia.
    replace (Z.max 0 (- (1152 - L))) with 0 by lia.
    rewrite Z.pow_0_r, Z.mul_1_r. reflexivity.
Qed.

(** How a rounded quotient compares with a float [M * 2 ^ (- P)]: it is not
  above one the quotient does not exceed, not below one the quotient
  reaches, and not above [M * 2 ^ (- P)] when the quotient stays below the
  midpoint to the next float [(M + 1) * 2 ^ (- P)]. *)
Lemma rounded_mantissa_range (n d p : Z) :
0 < n -> 0 < d -> 0 < p -> 2 ^ 52 * d <= n * 2 ^ p < 2 ^ 53 * d ->
2 ^ 52 <= round_half_even (n * 2 ^ p) d <= 2 ^ 53.
Proof.
  intros Hn Hd Hp Hgrid. split.
  - apply round_half_even_lower; lia.
  - apply round_half_even_upper; lia.
Qed.

Lemma rounded_upper (n d p M P : Z) :
0 < n -> 0 < d -> 0 < p -> 2 ^ 52 * d <= n * 2 ^ p < 2 ^ 53 * d ->
  0 <= P -> 0 <= M < 2 ^ 53 -> n * 2 ^ P <= M * d ->
  round_half_even (n * 2 ^ p) d * 2 ^ P <= M * 2 ^ p.
Proof.
  intros Hn Hd Hp Hgrid HP HM Hle. set (m := round_half_even (n * 2 ^ p) d).
  assert (HP0 : 0 < 2 ^ P) by (apply Z.pow_pos_nonneg; lia).
  destruct (Z.le_gt_cases P p) as [Hcmp|Hcmp].
  - destruct (pow2_split P p ltac:(lia)) as [Hs Hb].
    assert (Hm : m <= M * 2 ^ (p - P)).
    { apply round_half_even_upper; [lia|]. rewrite Hs. nia. }
    rewrite Hs. nia.
  - destruct (pow2_split_lt p P ltac:(lia)) as [Hs Hb].
    rewrite Hs in Hle. exfalso. nia.
Qed.

Lemma rounded_lower (n d p M P : Z) :
0 < n -> 0 < d -> 0 < p -> 2 ^ 52 * d <= n * 2 ^ p < 2 ^ 53 * d ->
  0 <= P -> 0 <= M < 2 ^ 53 -> M * d <= n * 2 ^ P ->
  M * 2 ^ p <= round_half_even (n * 2 ^ p) d * 2 ^ P.
Proof.
  intros Hn Hd Hp Hgrid HP HM Hle. set (m := round_half_even (n * 2 ^ p) d).
  assert (Hp0 : 0 < 2 ^ p) by (apply Z.pow_pos_nonneg; lia).
  destruct (Z.le_gt_cases P p) as [Hcmp|Hcmp].
  - destruct (pow2_split P p ltac:(lia)) as [Hs Hb].
    assert (Hm : M * 2 ^ (p - P) <= m).
    { apply round_half_even_lower; [lia|]. rewrite Hs. nia. }
    rewrite Hs. nia.
  - destruct (pow2_split_lt p P ltac:(lia)) as [Hs Hb].
    pose proof (rounded_mantissa_range n d p Hn Hd Hp Hgrid) as [Hm _]. fold m in Hm.
    rewrite Hs. nia.
Qed.

Lemma rounded_below_mid (n d p M P : Z) :
0 < n -> 0 < d -> 0 < p -> 2 ^ 52 * d <= n * 2 ^ p < 2 ^ 53 * d ->
  0 <= P -> 2 ^ 52 <= M < 2 ^ 53 ->
  2 * (n * 2 ^ P) < (2 * M + 1) * d ->
  round_half_even (n * 2 ^ p) d * 2 ^ P <= M * 2 ^ p.
Proof.
  intros Hn Hd Hp Hgrid HP HM Hlt. set (m := round_half_even (n * 2 ^ p) d).
  assert (HP0 : 0 < 2 ^ P) by (apply Z.pow_pos_nonneg; lia).
  destruct (Z.lt_trichotomy P p) as [Hcmp|[Hcmp|Hcmp]].
  - destruct (pow2_split_lt P p ltac:(lia)) as [Hs Hb].
    apply rounded_upper; [lia | lia | lia | lia | lia | lia |].
    rewrite Hs in Hgrid. nia.
  - subst P.
    assert (Hm : m <= M) by (apply round_half_even_below_mid; lia).
    nia.
  - destruct (pow2_split_lt p P ltac:(lia)) as [Hs Hb].
    rewrite Hs in Hlt. exfalso. nia.
Qed.

Lemma round_binary64_positive (n d : Z) :
  0 < n -> round_binary64 n d = round_binary64_pos n d.
Proof. destruct n; [lia | reflexivity | lia]. Qed.

Lemma round_binary64_opp (n d : Z) :
  0 < n ->
  round_binary64 (- n) d
  = {| fmant := - fmant (round_binary64 n d);
       fexp := fexp (round_binary64 n d) |}.
Proof. destruct n; [lia | reflexivity | lia]. Qed.

(** The two roundings of a positive duration of [d] microseconds, in the
    [K]-th minute: the float minutes lie in [[K - 1, K)]. *)
Lemma float_minutes_positive (d : Z) :
  0 < d < 286331153 * MINUTE ->
  int_of_float (float_div_int (total_seconds d) 60) = d / MINUTE.
Proof.
  intros Hd. unfold MINUTE in *.
  set (K := d / (60 * 1000000) + 1).
  assert (HK : (K - 1) * 60000000 <= d <= K * 60000000 - 1 /\ 1 <= K <= 286331153).
  { unfold K. pose proof (Z.div_mod d 60000000 ltac:(lia)).
    pose proof (Z.mod_pos_bound d 60000000 ltac:(lia)).
    change (60 * 1000000) with 60000000.
    assert (d / 60000000 < 286331153) by (apply Z.div_lt_upper_bound; lia).
    assert (0 <= d / 60000000) by (apply Z.div_pos; lia).
    lia. }
  replace (d / (60 * 1000000)) with (K - 1) by (unfold K; lia).
  clearbody K. destruct HK as [HdK HKr].
  (* first rounding: d / 10^6 *)
  unfold total_seconds. rewrite round_binary64_positive by lia.
  destruct (round_binary64_pos_grid d 1000000) as (p1 & Hp1 & Hg1 & ->);
    [lia | lia | | lia | ].
  { assert (2 ^ 20 <= 2 ^ 1022) by (apply Z.pow_le_mono_r; lia). lia. }
  set (m1 := round_half_even (d * 2 ^ p1) 1000000).
  assert (Hp1' : p1 < 73).
  { apply (Z.pow_lt_mono_r_iff 2); [lia | lia |]. nia. }
  assert (Hpow1 : 0 < 2 ^ p1 <= 2 ^ 73).
  { split; [apply Z.pow_pos_nonneg; lia | apply Z.pow_le_mono_r; lia]. }
  pose proof (rounded_mantissa_range d 1000000 p1 ltac:(lia) ltac:(lia) ltac:(lia) Hg1) as Hm1.
  fold m1 in Hm1.
  assert (Hlow1 : 60 * (K - 1) * 2 ^ p1 <= m1).
  { pose proof (rounded_lower d 1000000 p1 (60 * (K - 1)) 0 ltac:(lia) ltac:(lia) ltac:(lia) Hg1
                      ltac:(lia) ltac:(lia) ltac:(lia)) as Hl.
    fold m1 in Hl. lia. }
  (* second rounding: m1 * 2^(-p1) / 60 *)
  unfold float_div_int. cbn [fmant fexp]. unfold scaled_num, scaled_den.
  rewrite Z.opp_involutive.
  replace (Z.max 0 (- p1)) with 0 by lia.
  replace (Z.max 0 p1) with p1 by lia.
  rewrite Z.pow_0_r, Z.mul_1_r.
  rewrite round_binary64_positive by lia.
  destruct (round_binary64_pos_grid m1 (60 * 2 ^ p1)) as (p2 & Hp2 & Hg2 & ->);
    [lia | lia | | | ].
  { assert (2 ^ 1022 = 2 ^ 73 * 2 ^ 949) as -> by (rewrite <- Z.pow_add_r by lia; reflexivity).
    assert (0 < 2 ^ 949) by (apply Z.pow_pos_nonneg; lia). nia. }
  { nia. }
  set (m2 := round_half_even (m1 * 2 ^ p2) (60 * 2 ^ p1)).
  assert (Hpow2 : 0 < 2 ^ p2) by (apply Z.pow_pos_nonneg; lia).
  assert (Hlow2 : (K - 1) * 2 ^ p2 <= m2).
  { pose proof (rounded_lower m1 (60 * 2 ^ p1) p2 (K - 1) 0 ltac:(lia) ltac:(lia) ltac:(lia) Hg2
                      ltac:(lia) ltac:(lia) ltac:(lia)) as Hl.
    fold m2 in Hl. lia. }
  assert (Hup2 : m2 < K * 2 ^ p2).
  { destruct (Z.le_gt_cases (60 * K) (2 ^ 33)) as [HS|HS].
    - (* seconds below 2^33: the float 60 K - 2^-20 bounds the first rounding *)
      assert (Hup1 : m1 * 2 ^ 20 <= (60 * K * 2 ^ 20 - 1) * 2 ^ p1).
      { pose proof (rounded_upper d 1000000 p1 (60 * K * 2 ^ 20 - 1) 20 ltac:(lia) ltac:(lia) ltac:(lia) Hg1
                      ltac:(lia) ltac:(lia)
                      ltac:(lia)) as Hu.
        fold m1 in Hu. exact Hu. }
      destruct (Z.le_gt_cases K (2 ^ 27)) as [HK27|HK27].
      + pose proof (rounded_upper m1 (60 * 2 ^ p1) p2 (K * 2 ^ 26 - 1) 26 ltac:(lia) ltac:(lia) ltac:(lia) Hg2
                      ltac:(lia) ltac:(lia)
                      ltac:(lia)) as Hu.
        fold m2 in Hu. lia.
      + pose proof (rounded_below_mid m1 (60 * 2 ^ p1) p2 (K * 2 ^ 25 - 1) 25 ltac:(lia) ltac:(lia) ltac:(lia) Hg2
                      ltac:(lia) ltac:(lia)
                      ltac:(lia)) as Hu.
        fold m2 in Hu. lia.
    - (* seconds between 2^33 and 2^34: 60 K - 2^-19 is the float below 60 K *)
      assert (Hup1 : m1 * 2 ^ 19 <= (60 * K * 2 ^ 19 - 1) * 2 ^ p1).
      { pose proof (rounded_below_mid d 1000000 p1 (60 * K * 2 ^ 19 - 1) 19 ltac:(lia) ltac:(lia) ltac:(lia) Hg1
                      ltac:(lia) ltac:(lia)
                      ltac:(lia)) as Hu.
        fold m1 in Hu. exact Hu. }
      destruct (Z.le_gt_cases K (2 ^ 28)) as [HK28|HK28].
      + pose proof (rounded_upper m1 (60 * 2 ^ p1) p2 (K * 2 ^ 25 - 1) 25 ltac:(lia) ltac:(lia) ltac:(lia) Hg2
                      ltac:(lia) ltac:(lia)
                      ltac:(lia)) as Hu.
        fold m2 in Hu. lia.
      + pose proof (rounded_below_mid m1 (60 * 2 ^ p1) p2 (K * 2 ^ 24 - 1) 24 ltac:(lia) ltac:(lia) ltac:(lia) Hg2
                      ltac:(lia) ltac:(lia)
                      ltac:(lia)) as Hu.
        fold m2 in Hu. lia. }
  unfold int_of_float. cbn [fmant fexp]. unfold scaled_num, scaled_den.
  rewrite Z.opp_involutive.
  replace (Z.max 0 (- p2)) with 0 by lia.
  replace (Z.max 0 p2) with p2 by lia.
  rewrite Z.pow_0_r, Z.mul_1_r, Z.mul_1_l.
  assert (Hm2 : 0 <= m2) by nia.
  rewrite Z.quot_div_nonneg by lia.
  symmetry. apply (Z.div_unique m2 (2 ^ p2) (K - 1) (m2 - (K - 1) * 2 ^ p2)); lia.
Qed.

Lemma total_seconds_positive (a : Z) :
  0 < a < 2 ^ 52 * 1000000 -> 0 < fmant (total_seconds a).
Proof.
  intros Ha. unfold total_seconds. rewrite round_binary64_positive by lia.
  destruct (round_binary64_pos_grid a 1000000) as (p & Hp & Hg & ->);
    [lia | lia | | lia | ].
  { assert (2 ^ 20 <= 2 ^ 1022) by (apply Z.pow_le_mono_r; lia). lia. }
  cbn [fmant].
  pose proof (rounded_mantissa_range a 1000000 p ltac:(lia) ltac:(lia)
                ltac:(lia) Hg). lia.
Qed.

(** A negative duration gives the opposite of its positive counterpart. *)
Lemma float_minutes_opp (a : Z) :
  0 < a < 2 ^ 52 * 1000000 ->
  int_of_float (float_div_int (total_seconds (- a)) 60)
  = - int_of_float (float_div_int (total_seconds a) 60).
Proof.
  intros Ha. pose proof (total_seconds_positive a Ha) as Hm.
  unfold total_seconds in *. rewrite round_binary64_opp by lia.
  set (f := round_binary64 a 1000000) in *.
  unfold float_div_int. cbn [fmant fexp].
  assert (Hpow : 0 < 2 ^ Z.max 0 (fexp f)) by (apply Z.pow_pos_nonneg; lia).
  assert (Hpow' : 0 < 2 ^ Z.max 0 (- fexp f)) by (apply Z.pow_pos_nonneg; lia).
  assert (Hnum : scaled_num (- fmant f) (fexp f) = - scaled_num (fmant f) (fexp f))
    by (unfold scaled_num; lia).
  rewrite Hnum, round_binary64_opp by (unfold scaled_num; nia).
  set (g := round_binary64 _ _).
  unfold int_of_float. cbn [fmant fexp].
  assert (Hnum' : scaled_num (- fmant g) (fexp g) = - scaled_num (fmant g) (fexp g))
    by (unfold scaled_num; lia).
  rewrite Hnum'. apply Z.quot_opp_l.
  assert (0 < 2 ^ Z.max 0 (- fexp g)) by (apply Z.pow_pos_nonneg; lia).
  unfold scaled_den. lia.
Qed.

(** Within 286331153 minutes of zero, either way, the float computation
    agrees with the truncating integer quotient. *)
Lemma float_minutes_truncates (d : Z) :
  Z.abs d < 286331153 * MINUTE ->
  int_of_float (float_div_int (total_seconds d) 60) = Z.quot d MINUTE.
Proof.
  intros Hd. destruct (Z.lt_trichotomy d 0) as [Hneg|[->|Hpos]].
  - replace d with (- (- d)) by lia.
    rewrite float_minutes_opp by (unfold MINUTE in Hd; lia).
    rewrite float_minutes_positive by lia.
    rewrite Z.quot_opp_l by (unfold MINUTE; lia).
    rewrite Z.quot_div_nonneg by (unfold MINUTE; lia). reflexivity.
  - reflexivity.
  - rewrite float_minutes_positive by lia.
    rewrite Z.quot_div_nonneg by (unfold MINUTE; lia). reflexivity.
Qed.

(** C5 (as amended): the encode maps [None] to 0 without reading the
    clock; for a resume date-time dt less than 286331153 minutes (about 544
    years) before or after the clock reading [now], it yields the quotient of
    [dt - now] by one minute truncated toward zero; exactly 90 minutes ahead
    gives 90. *)
Theorem RainDelaySet_encode `{Runtime} (dt : Z) (st : State) :
  let now := wall_clock (clock_reads st) in
  Z.abs (dt - now) < 286331153 * MINUTE ->
  RainDelaySet PNone st = (Ok (PInt 0), st)
  /\ RainDelaySet (PDateTime dt) st
     = (Ok (PInt (Z.quot (dt - now) MINUTE)), ticked st)
  /\ (dt = now + 90 * MINUTE ->
      RainDelaySet (PDateTime dt) st = (Ok (PInt 90), ticked st)).
Proof.
  intros now Hnear.
  assert (Hrun : RainDelaySet (PDateTime dt) st
                 = (Ok (PInt (Z.quot (dt - now) MINUTE)), ticked st)).
  { unfold RainDelaySet. cbn [py_truth negb].
    unfold bind, datetime_now, lift, ret. fold now. fold (ticked st).
    unfold timedelta.
    assert (Hv : valid_timedelta (dt - now) = true).
    { unfold valid_timedelta, DAY, MINUTE in *. lia. }
    rewrite Hv. rewrite float_minutes_truncates by exact Hnear. reflexivity. }
  split; [reflexivity|]. split; [exact Hrun|].
  intros Hdt. rewrite Hrun. do 3 f_equal.
  replace (dt - now) with (90 * MINUTE) by lia.
  apply Z.quot_mul. unfold MINUTE. lia.
Qed.

Lemma RainDelaySet_encode_90_minutes :
  let device := fixed_device 200 (Ok (PDict [])) noon_2023_11_14 in
  let st := Controller "os.local" "5f4d" in
  RainDelaySet PNone st = (Ok (PInt 0), st)
  /\ RainDelaySet (PDateTime (noon_2023_11_14 + 90 * MINUTE)) st
     = (Ok (PInt 90), ticked st)
  /\ RainDelaySet (PDateTime (noon_2023_11_14 - 90 * MINUTE - 30 * 1000000)) st
     = (Ok (PInt (-90)), ticked st).
Proof.
  intros device st.
  assert (Hnear : Z.abs (noon_2023_11_14 + 90 * MINUTE
                         - wall_clock (clock_reads st)) < 286331153 * MINUTE)
    by (vm_compute; reflexivity).
  assert (Hpast : Z.abs (noon_2023_11_14 - 90 * MINUTE - 30 * 1000000
                         - wall_clock (clock_reads st)) < 286331153 * MINUTE)
    by (vm_compute; reflexivity).
  destruct (RainDelaySet_encode _ st Hnear) as (H0 & _ & H90).
  destruct (RainDelaySet_encode _ st Hpast) as (_ & Hback & _).
  split; [exact H0|]. split; [apply H90; reflexivity|].
  rewrite Hback. vm_compute. reflexivity.
Defined.

(** C5, as stated, fails 286331154 minutes less one microsecond ahead:
    the seconds are rounded up to the next float, 17179869240.0, and the
    encode yields 286331154, one more than the truncated quotient. *)
Lemma RainDelaySet_rounds_up :
  let device := fixed_device 200 (Ok (PDict [])) noon_2023_11_14 in
  let st := Controller "os.local" "5f4d" in
  let dt := noon_2023_11_14 + 286331154 * MINUTE - 1 in
  valid_datetime dt = true
  /\ RainDelaySet (PDateTime dt) st = (Ok (PInt 286331154), ticked st)
  /\ Z.quot (dt - noon_2023_11_14) MINUTE = 286331153.
Proof.
  repeat split; vm_compute; reflexivity.
Qed.

(** * Further properties *)

(** ** Requests *)

Section Requests.
Context `{Runtime}.

Lemma query_loop_spec (d : list (string * pyval)) (base : string) :
  query_loop d base
  = base +:+ foldr (fun kv acc =>
                      "&" +:+ fst kv +:+ "=" +:+ py_str (snd kv) +:+ acc) "" d.
Proof.
  revert base. induction d as [|[k v] d IH]; intros base; cbn [query_loop foldr].
  - symmetry. apply append_empty_r.
  - rewrite IH. cbn [fst snd]. rewrite !append_assoc. reflexivity.
Qed.

Lemma json_get_state (hostname password path : string) (vars : pyval)
    (url : string) (st : State) :
  request_url hostname password path vars = Ok url ->
  _json_get hostname password path vars st
  = (r <-r http_get (requests st) url;; response_outcome r, sent url st).
Proof. intros Hurl. rewrite json_get_run, Hurl. reflexivity. Qed.
End Requests.

(** X1: a call of [_json_get] sends exactly one request, whatever its
    outcome, and changes nothing else: to [http://host/path/?pw=password],
    followed, for a dict of variables, by [&key=value] for each item in the
    order of the dict. *)
Theorem json_get_request_url `{Runtime}
    (hostname password path : string) (d : list (string * pyval)) (st : State) :
  let base := "http://" +:+ hostname +:+ "/" +:+ path +:+ "/?pw=" +:+ password in
  let query :=
    foldr (fun kv acc => "&" +:+ fst kv +:+ "=" +:+ py_str (snd kv) +:+ acc)
      "" d in
  snd (_json_get hostname password path (PDict d) st) = sent (base +:+ query) st
  /\ snd (_json_get hostname password path PNone st) = sent base st.
Proof.
  intros base query. split.
  - rewrite json_get_run. unfold request_url. rewrite base_url.
    cbn [rbind py_truth]. fold base.
    destruct d as [|kv d].
    + unfold query. cbn [foldr]. rewrite append_empty_r. reflexivity.
    + rewrite query_loop_spec. reflexivity.
  - rewrite json_get_run, request_url_no_variables. reflexivity.
Qed.

(** X2: a response whose HTTP status is not 200 ends [_json_get] in
    [ValueError('Failed GET request with status %d.', status)]; the body is
    not looked at. *)
Theorem json_get_http_status_error `{Runtime}
    (hostname password path : string) (vars : pyval) (url : string)
    (resp : Response) (st : State) :
  request_url hostname password path vars = Ok url ->
  http_get (requests st) url = Ok resp ->
  status_code resp <> 200 ->
  _json_get hostname password path vars st
  = (Raise (ValueError [PStr "Failed GET request with status %d.";
                        PInt (status_code resp)]),
     sent url st).
Proof.
  intros Hurl Hresp Hstatus. rewrite (json_get_state _ _ _ _ url) by exact Hurl.
  rewrite Hresp. cbn [rbind]. unfold response_outcome.
  destruct (Z.eqb_spec (status_code resp) 200) as [|_]; [contradiction|].
  reflexivity.
Qed.

Lemma json_get_http_status_error_503 :
  let device :=
    fixed_device 503 (Ok (PDict [("result", PInt 1)])) noon_2023_11_14 in
  _json_get "os.local" "5f4d" "jc" PNone new_object
  = (Raise (ValueError [PStr "Failed GET request with status %d."; PInt 503]),
     sent "http://os.local/jc/?pw=5f4d" new_object).
Proof.
  intros device.
  apply (json_get_http_status_error "os.local" "5f4d" "jc" PNone
           "http://os.local/jc/?pw=5f4d"
           {| status_code := 503; json := Ok (PDict [("result", PInt 1)]) |}
           new_object).
  - reflexivity.
  - reflexivity.
  - cbn [status_code]. lia.
Defined.

(** X3: on status 200, a JSON object that has no [result] key, or whose
    [result] is 1, is returned as it came. *)
Theorem json_get_returns_document `{Runtime}
    (hostname password path : string) (vars : pyval) (url : string)
    (doc : list (string * pyval)) (st : State) :
  request_url hostname password path vars = Ok url ->
  http_get (requests st) url
  = Ok {| status_code := 200; json := Ok (PDict doc) |} ->
  dict_get "result" doc = None \/ dict_get "result" doc = Some (PInt 1) ->
  _json_get hostname password path vars st = (Ok (PDict doc), sent url st).
Proof.
  intros Hurl Hresp Hdoc. rewrite (json_get_state _ _ _ _ url) by exact Hurl.
  rewrite Hresp. cbn [rbind]. rewrite outcome_success by exact Hdoc.
  reflexivity.
Qed.

Lemma json_get_returns_document_status :
  let doc := [("nbrd", PInt 2); ("en", PInt 1)] in
  let device := fixed_device 200 (Ok (PDict doc)) noon_2023_11_14 in
  _json_get "os.local" "5f4d" "jc" PNone new_object
  = (Ok (PDict doc), sent "http://os.local/jc/?pw=5f4d" new_object).
Proof.
  intros doc device.
  apply (json_get_returns_document "os.local" "5f4d" "jc" PNone
           "http://os.local/jc/?pw=5f4d" doc new_object).
  - reflexivity.
  - reflexivity.
  - left. reflexivity.
Defined.

(** X4: on status 200, an integer [result] other than 1 that
    [STATUS_CODES] lists ends [_json_get] in [ValueError('Failure response
    (%d):%s', code, meaning)], with the meaning the table gives. *)
Theorem json_get_listed_failure `{Runtime}
    (hostname password path : string) (vars : pyval) (url : string)
    (doc : list (string * pyval)) (n : Z) (msg : string) (st : State) :
  request_url hostname password path vars = Ok url ->
  http_get (requests st) url
  = Ok {| status_code := 200; json := Ok (PDict doc) |} ->
  dict_get "result" doc = Some (PInt n) ->
  n <> 1 ->
  status_get n STATUS_CODES = Some msg ->
  _json_get hostname password path vars st
  = (Raise (ValueError [PStr "Failure response (%d):%s"; PInt n; PStr msg]),
     sent url st).
Proof.
  intros Hurl Hresp Hdoc Hn Hmsg.
  rewrite (json_get_state _ _ _ _ url) by exact Hurl.
  rewrite Hresp. cbn [rbind].
  rewrite (outcome_listed_code doc n msg Hdoc Hn Hmsg). reflexivity.
Qed.

Lemma json_get_listed_failure_48 :
  let device :=
    fixed_device 200 (Ok (PDict [("result", PInt 48)])) noon_2023_11_14 in
  _json_get "os.local" "5f4d" "cv" (PDict [("rd", PInt 0)]) new_object
  = (Raise (ValueError
              [PStr "Failure response (%d):%s"; PInt 48;
               PStr "Not Permitted (e.g. cannot operate on the requested station)"]),
     sent "http://os.local/cv/?pw=5f4d&rd=0" new_object).
Proof.
  intros device.
  apply (json_get_listed_failure "os.local" "5f4d" "cv" (PDict [("rd", PInt 0)])
           "http://os.local/cv/?pw=5f4d&rd=0" [("result", PInt 48)] 48).
  - reflexivity.
  - reflexivity.
  - reflexivity.
  - lia.
  - reflexivity.
Defined.

(** X5: on status 200, a body that is a JSON number, boolean or null ends
    [_json_get] in [TypeError]: ['result' in retval] needs a container. *)
Theorem json_get_scalar_body `{Runtime}
    (hostname password path : string) (vars : pyval) (url : string)
    (v : pyval) (st : State) :
  request_url hostname password path vars = Ok url ->
  http_get (requests st) url = Ok {| status_code := 200; json := Ok v |} ->
  v = PNone \/ (exists b, v = PBool b) \/ (exists z, v = PInt z) ->
  _json_get hostname password path vars st = (Raise TypeError, sent url st).
Proof.
  intros Hurl Hresp Hv. rewrite (json_get_state _ _ _ _ url) by exact Hurl.
  rewrite Hresp. cbn [rbind].
  destruct Hv as [->|[[b ->]|[z ->]]]; reflexivity.
Qed.

Lemma json_get_scalar_body_null :
  let device := fixed_device 200 (Ok PNone) noon_2023_11_14 in
  _json_get "os.local" "5f4d" "jc" PNone new_object
  = (Raise TypeError, sent "http://os.local/jc/?pw=5f4d" new_object).
Proof.
  intros device.
  apply (json_get_scalar_body "os.local" "5f4d" "jc" PNone
           "http://os.local/jc/?pw=5f4d" PNone new_object).
  - reflexivity.
  - reflexivity.
  - left. reflexivity.
Defined.

(** X6: an exception of [requests.get], or of [r.json()] on a status-200
    response, leaves [_json_get] as it is, after the request was sent. *)
Theorem json_get_propagates_failure `{Runtime}
    (hostname password path : string) (vars : pyval) (url : string)
    (e : exn) (st : State) :
  request_url hostname password path vars = Ok url ->
  http_get (requests st) url = Raise e
  \/ http_get (requests st) url = Ok {| status_code := 200; json := Raise e |} ->
  _json_get hostname password path vars st = (Raise e, sent url st).
Proof.
  intros Hurl Hfail. rewrite (json_get_state _ _ _ _ url) by exact Hurl.
  destruct Hfail as [-> | ->]; reflexivity.
Qed.

Lemma json_get_propagates_failure_unreachable :
  let device :=
    {| http_get := fun _ _ => Raise RequestException;
       wall_clock := fun _ => noon_2023_11_14;
       repr_compound := fun _ => "";
       int_of_str := fun _ => Raise (ValueError []);
       fromtimestamp := fun _ => Raise OSError |} in
  _json_get "os.local" "5f4d" "jc" PNone new_object
  = (Raise RequestException, sent "http://os.local/jc/?pw=5f4d" new_object).
Proof.
  intros device.
  apply (json_get_propagates_failure "os.local" "5f4d" "jc" PNone
           "http://os.local/jc/?pw=5f4d" RequestException new_object).
  - reflexivity.
  - left. reflexivity.
Defined.

(** ** Reads through the accessor *)

Section Reads.
Context `{Runtime}.

(** A read of a registered name is the fetch, the lookup of the wire key
    and the transform, in this order. *)
Lemma getattr_method_run (name : string) (fd : FieldDescriptor)
    (hostname password : string) (st : State) :
  registry_get name my_get_args = Some fd ->
  attrs st !! "parent" = Some (PSprinkler hostname password) ->
  __getattr__ name st
  = match _json_get hostname password "jc" PNone st with
    | (Ok data, st') =>
        match py_getitem data (_tag fd) with
        | Ok v => _type fd v st'
        | Raise e => (Raise e, st')
        end
    | (Raise e, st') => (Raise e, st')
    end.
Proof.
  intros Hreg Hparent. unfold __getattr__. rewrite Hreg.
  unfold bind, self_parent. rewrite Hparent. cbn [default id call_json_get].
  destruct (_json_get hostname password "jc" PNone st) as [[data|e] st'];
    [|reflexivity].
  unfold getAsType, bind, lift.
  destruct (py_getitem data (_tag fd)); reflexivity.
Qed.

(** After the clock was read at most once: the state a Get transform
    leaves. *)
Lemma SunTime_state (v : pyval) (st : State) :
  snd (SunTime v st) = st \/ snd (SunTime v st) = ticked st.
Proof.
  unfold SunTime. destruct (py_eq_int v 0); [left; reflexivity|].
  right. unfold bind, datetime_now, lift, ret. fold (ticked st).
  destruct (timedelta DAY); [|reflexivity]. cbn [snd].
  destruct (datetime_add _ _); [|reflexivity].
  destruct (timedelta_minutes v); [|reflexivity].
  destruct (datetime_sub _ _); reflexivity.
Qed.

Lemma get_types_state (name : string) (fd : FieldDescriptor) (v : pyval)
    (st : State) :
  registry_get name my_get_args = Some fd ->
  snd (_type fd v st) = st \/ snd (_type fd v st) = ticked st.
Proof.
  unfold my_get_args. cbn [registry_get].
  repeat (destruct (String.eqb name _);
          [intros [= <-]; cbn [_type];
           first [apply SunTime_state | left; reflexivity]|]).
  discriminate.
Qed.
End Reads.

(** X7: when the status document fetched for a registered name holds the
    descriptor's wire key, the read is the descriptor's transform applied to
    the value stored under that key, run after the fetch. *)
Theorem getattr_decodes_fetched_value `{Runtime}
    (name : string) (fd : FieldDescriptor) (hostname password : string)
    (doc : list (string * pyval)) (v : pyval) (st st' : State) :
  registry_get name my_get_args = Some fd ->
  attrs st !! "parent" = Some (PSprinkler hostname password) ->
  _json_get hostname password "jc" PNone st = (Ok (PDict doc), st') ->
  dict_get (_tag fd) doc = Some v ->
  __getattr__ name st = _type fd v st'.
Proof.
  intros Hreg Hparent Hfetch Hkey.
  rewrite (getattr_method_run name fd hostname password st Hreg Hparent).
  rewrite Hfetch. cbn [py_getitem]. rewrite Hkey. reflexivity.
Qed.

Lemma getattr_decodes_fetched_value_rain_sensor :
  let device :=
    fixed_device 200 (Ok (PDict [("rs", PInt 7); ("loc", PStr "Boston")]))
      noon_2023_11_14 in
  let st := Controller "os.local" "5f4d" in
  __getattr__ "rain_sensor" st
  = (Ok (PBool true), sent "http://os.local/jc/?pw=5f4d" st).
Proof.
  intros device st.
  rewrite (getattr_decodes_fetched_value "rain_sensor"
             {| _tag := "rs"; _type := pure py_bool |} "os.local" "5f4d"
             [("rs", PInt 7); ("loc", PStr "Boston")] (PInt 7) st
             (sent "http://os.local/jc/?pw=5f4d" st)).
  - reflexivity.
  - reflexivity.
  - vm_compute. reflexivity.
  - vm_compute. reflexivity.
  - reflexivity.
Defined.

(** X8: when the device reports [sbits] as an array, as the class
    docstring describes it (one byte per board), reading [station_status]
    raises [TypeError] after the fetch: [Stations] applies [&] to the list. *)
Theorem station_status_of_array `{Runtime}
    (hostname password : string) (doc : list (string * pyval))
    (boards : list pyval) (st st' : State) :
  attrs st !! "parent" = Some (PSprinkler hostname password) ->
  _json_get hostname password "jc" PNone st = (Ok (PDict doc), st') ->
  dict_get "sbits" doc = Some (PList boards) ->
  __getattr__ "station_status" st = (Raise TypeError, st').
Proof.
  intros Hparent Hfetch Hkey.
  rewrite (getattr_method_run "station_status"
             {| _tag := "sbits"; _type := pure Stations |}
             hostname password st eq_refl Hparent).
  rewrite Hfetch. cbn [py_getitem _tag]. rewrite Hkey. reflexivity.
Qed.

Lemma station_status_of_array_one_board :
  let device :=
    fixed_device 200 (Ok (PDict [("sbits", PList [PInt 5])])) noon_2023_11_14 in
  let st := Controller "os.local" "5f4d" in
  __getattr__ "station_status" st
  = (Raise TypeError, sent "http://os.local/jc/?pw=5f4d" st).
Proof.
  intros device st.
  apply (station_status_of_array "os.local" "5f4d"
           [("sbits", PList [PInt 5])] [PInt 5]).
  - vm_compute. reflexivity.
  - vm_compute. reflexivity.
  - reflexivity.
Defined.

(** X9: when [parent] is not an [OpenSprinkler] (a Controller built on
    [None], say, or one whose [parent] was never set), reading a registered
    name raises [AttributeError] and sends nothing. *)
Theorem getattr_without_sprinkler `{Runtime} (name : string) (st : State) :
  registered name my_get_args = true ->
  (forall hostname password,
     attrs st !! "parent" <> Some (PSprinkler hostname password)) ->
  __getattr__ name st = (Raise AttributeError, st).
Proof.
  unfold registered, __getattr__.
  destruct (registry_get name my_get_args) as [fd|]; [|discriminate].
  intros _ Hparent. unfold bind, self_parent.
  destruct (attrs st !! "parent") as [[| | | | | | | |hostname password|]|]
    eqn:Hp; cbn [default id call_json_get]; try reflexivity.
  exfalso. exact (Hparent hostname password eq_refl).
Qed.

Lemma getattr_without_sprinkler_None :
  let device := fixed_device 200 (Ok (PDict [("en", PInt 1)])) noon_2023_11_14 in
  let st := snd (__init__ PNone new_object) in
  __getattr__ "enable" st = (Raise AttributeError, st)
  /\ __getattr__ "enable" new_object = (Raise AttributeError, new_object).
Proof.
  intros device st. split.
  - apply (getattr_without_sprinkler "enable" st); [reflexivity|].
    intros hostname password. vm_compute. discriminate.
  - apply (getattr_without_sprinkler "enable" new_object); [reflexivity|].
    intros hostname password. vm_compute. discriminate.
Defined.

(** X10: an attribute read never changes the instance dictionary, sends at
    most one request and reads the clock at most once. *)
Theorem getattr_footprint `{Runtime} (name : string) (st : State) :
  let st' := snd (getattr name st) in
  attrs st' = attrs st
  /\ (requests st' = requests st
      \/ exists url, requests st' = requests st ++ [url])
  /\ (clock_reads st' = clock_reads st \/ clock_reads st' = S (clock_reads st)).
Proof.
  intros st'. split; [apply keeps_attrs_getattr|].
  unfold st', getattr.
  destruct (attrs st !! name); [split; left; reflexivity|].
  destruct (existsb (String.eqb name) class_namespace);
    [split; left; reflexivity|].
  unfold __getattr__.
  destruct (registry_get name my_get_args) as [fd|] eqn:Hreg;
    [|split; left; reflexivity].
  unfold bind, self_parent. cbn [fst snd].
  set (parent := default PNone (attrs st !! "parent")).
  destruct parent; cbn [call_json_get raise];
    try (split; left; reflexivity).
  rewrite json_get_run, request_url_no_variables.
  set (url := "http://" +:+ _).
  destruct (r <-r http_get (requests st) url;; response_outcome r) as [data|e].
  - unfold getAsType, bind, lift.
    destruct (py_getitem data (_tag fd)) as [v|e].
    + destruct (get_types_state name fd v (sent url st) Hreg) as [-> | ->].
      * split; [right; exists url; reflexivity | left; reflexivity].
      * split; [right; exists url; reflexivity | right; reflexivity].
    + split; [right; exists url; reflexivity | left; reflexivity].
  - split; [right; exists url; reflexivity | left; reflexivity].
Qed.

(** X11: nothing is cached: two reads of registered names, one after the
    other, send two requests to the status endpoint. *)
Theorem reads_are_not_cached `{Runtime}
    (name1 name2 : string) (hostname password : string) (st : State) :
  registered name1 my_get_args = true ->
  registered name2 my_get_args = true ->
  attrs st !! "parent" = Some (PSprinkler hostname password) ->
  let url := "http://" +:+ hostname +:+ "/jc/?pw=" +:+ password in
  requests (snd (__getattr__ name2 (snd (__getattr__ name1 st))))
  = requests st ++ [url; url].
Proof.
  intros Hreg1 Hreg2 Hparent url.
  rewrite (getattr_method_fetches name2 hostname password).
  - rewrite (getattr_method_fetches name1 hostname password st Hreg1 Hparent).
    rewrite <- app_assoc. reflexivity.
  - exact Hreg2.
  - rewrite keeps_attrs_getattr_method. exact Hparent.
Qed.

Lemma reads_are_not_cached_enable_twice :
  let device := fixed_device 200 (Ok (PDict [("en", PInt 1)])) noon_2023_11_14 in
  let st := Controller "os.local" "5f4d" in
  requests (snd (__getattr__ "enable" (snd (__getattr__ "enable" st))))
  = ["http://os.local/jc/?pw=5f4d"; "http://os.local/jc/?pw=5f4d"].
Proof.
  intros device st.
  apply (reads_are_not_cached "enable" "enable" "os.local" "5f4d" st).
  - reflexivity.
  - reflexivity.
  - vm_compute. reflexivity.
Defined.

(** ** The transforms *)

(** X12: the decode undoes the packing the class docstring gives for
    [eip]: for four bytes, [IPAddress] of
    [(a << 24) + (b << 16) + (c << 8) + d] is the string ["a.b.c.d"]. *)
Theorem IPAddress_of_packed_bytes `{Runtime} (a b c d : Z) :
  0 <= a <= 255 -> 0 <= b <= 255 -> 0 <= c <= 255 -> 0 <= d <= 255 ->
  IPAddress (PInt (Z.shiftl a 24 + Z.shiftl b 16 + Z.shiftl c 8 + d))
  = Ok (PStr (digits a +:+ "." +:+ digits b +:+ "." +:+ digits c +:+ "."
              +:+ digits d)).
Proof.
  intros Ha Hb Hc Hd.
  set (ip := Z.shiftl a 24 + Z.shiftl b 16 + Z.shiftl c 8 + d).
  assert (Hip : ip = a * 16777216 + b * 65536 + c * 256 + d).
  { unfold ip. rewrite !Z.shiftl_mul_pow2 by lia. reflexivity. }
  assert (Hq1 : ip / 256 = a * 65536 + b * 256 + c).
  { symmetry. apply (Z.div_unique ip 256 _ d); lia. }
  assert (Hq2 : ip / 256 / 256 = a * 256 + b).
  { rewrite Hq1. symmetry. apply (Z.div_unique _ 256 _ c); lia. }
  assert (Hq3 : ip / 256 / 256 / 256 = a).
  { rewrite Hq2. symmetry. apply (Z.div_unique _ 256 _ b); lia. }
  assert (H24 : Z.shiftr ip 24 = a).
  { rewrite Z.shiftr_div_pow2 by lia. change (2 ^ 24) with (256 * 256 * 256).
    rewrite <- !Z.div_div by lia. exact Hq3. }
  assert (H16 : Z.land (Z.shiftr ip 16) 255 = b).
  { change 255 with (Z.ones 8). rewrite Z.land_ones by lia.
    rewrite Z.shiftr_div_pow2 by lia. change (2 ^ 16) with (256 * 256).
    rewrite <- Z.div_div by lia. rewrite Hq2. change (2 ^ 8) with 256.
    symmetry. apply (Z.mod_unique _ 256 a); lia. }
  assert (H8 : Z.land (Z.shiftr ip 8) 255 = c).
  { change 255 with (Z.ones 8). rewrite Z.land_ones by lia.
    rewrite Z.shiftr_div_pow2 by lia. change (2 ^ 8) with 256. rewrite Hq1.
    symmetry. apply (Z.mod_unique _ 256 (a * 256 + b)); lia. }
  assert (H0 : Z.land ip 255 = d).
  { change 255 with (Z.ones 8). rewrite Z.land_ones by lia.
    change (2 ^ 8) with 256. rewrite Hip.
    symmetry. apply (Z.mod_unique _ 256 (a * 65536 + b * 256 + c)); lia. }
  unfold IPAddress, py_rshift, py_and. cbn [as_int rbind percent_format].
  rewrite H24, H16, H8, H0, append_empty_r. reflexivity.
Qed.

Lemma IPAddress_of_packed_bytes_192_168_1_10 :
  let device := fixed_device 200 (Ok (PDict [])) noon_2023_11_14 in
  IPAddress (PInt (Z.shiftl 192 24 + Z.shiftl 168 16 + Z.shiftl 1 8 + 10))
  = Ok (PStr "192.168.1.10").
Proof.
  intros device.
  apply (IPAddress_of_packed_bytes 192 168 1 10); lia.
Defined.

Lemma station_masks_mod (m : Z) : station_masks m = station_masks (m mod 256).
Proof.
  unfold station_masks. apply map_ext_in. intros i Hi.
  assert (Hr : 0 <= i < 8) by (unfold range8 in Hi; simpl in Hi; lia).
  rewrite !land_pow2 by lia.
  change 256 with (2 ^ 8). rewrite Z.mod_pow2_bits_low by lia. reflexivity.
Qed.

(** X13: for every integer, negative ones included, the elements of the
    decoded station tuple are nonnegative and add up to [m mod 256]. *)
Theorem Stations_sum_mod_256 (m : Z) :
  exists t,
    Stations (PInt m) = Ok (PTuple (map PInt t))
    /\ Forall (fun e => 0 <= e <= 128) t
    /\ sum_elements t = m mod 256.
Proof.
  exists (station_masks m). split; [apply Stations_int|].
  assert (Hm : 0 <= m mod 256 <= 255)
    by (pose proof (Z.mod_pos_bound m 256 ltac:(lia)); lia).
  split.
  - unfold station_masks, range8. cbn [map].
    repeat (apply Forall_cons; split;
            [rewrite land_pow2 by lia; destruct (Z.testbit m _);
             cbn; lia|]).
    apply Forall_nil. exact I.
  - rewrite station_masks_mod.
    unfold station_masks, sum_elements, range8. simpl.
    rewrite !mask_div by lia. pose proof (byte_bits (m mod 256) Hm). lia.
Qed.

Section SunTimeRun.
Context `{Runtime}.

Lemma SunTime_int_run (N : Z) (st : State) :
  N <> 0 ->
  SunTime (PInt N) st
  = (if valid_datetime (replace_midnight (wall_clock (clock_reads st)) + DAY)
        && valid_datetime (replace_midnight (wall_clock (clock_reads st))
                           + DAY - N * MINUTE)
     then Ok (PDateTime (replace_midnight (wall_clock (clock_reads st))
                         + DAY - N * MINUTE))
     else Raise OverflowError,
     ticked st).
Proof.
  intros HN. unfold SunTime. cbn [py_eq_int as_int].
  destruct (Z.eqb_spec N 0) as [|_]; [contradiction|].
  unfold bind, datetime_now, lift, ret. fold (ticked st).
  set (midnight := replace_midnight (wall_clock (clock_reads st))).
  assert (Hday : timedelta DAY = Ok DAY) by reflexivity.
  rewrite Hday. unfold datetime_add.
  destruct (valid_datetime (midnight + DAY)) eqn:Hv1; cbn [andb]; [|reflexivity].
  unfold timedelta_minutes. cbn [as_int]. unfold timedelta, datetime_sub.
  destruct (valid_datetime (midnight + DAY - N * MINUTE)) eqn:Hv2.
  - assert (Hv3 : valid_timedelta (N * MINUTE) = true).
    { unfold valid_datetime, valid_timedelta, MAXORDINAL, DAY, MINUTE in *. lia. }
    rewrite Hv3, Hv2. reflexivity.
  - destruct (valid_timedelta (N * MINUTE)); [rewrite Hv2|]; reflexivity.
Qed.
End SunTimeRun.

(** X14: for a value in the range of a day, [0 < N <= 1440], read on any
    day but the last one of the calendar, [SunTime] returns a time of the
    current day: the instant [1440 - N] minutes after today's midnight (not
    [N] minutes after it). *)
Theorem SunTime_within_today `{Runtime} (N : Z) (st : State) :
  0 < N <= 1440 ->
  let now := wall_clock (clock_reads st) in
  let midnight := replace_midnight now in
  valid_datetime now = true ->
  valid_datetime (midnight + DAY) = true ->
  exists t,
    SunTime (PInt N) st = (Ok (PDateTime t), ticked st)
    /\ midnight <= t < midnight + DAY
    /\ t - midnight = (1440 - N) * MINUTE.
Proof.
  intros HN now midnight Hnow Hnext.
  exists (midnight + DAY - N * MINUTE).
  rewrite SunTime_int_run by lia. fold now. fold midnight.
  pose proof (replace_midnight_spec now) as [_ Hmid]. fold midnight in Hmid.
  assert (Hge : 0 <= midnight).
  { unfold midnight, replace_midnight.
    assert (0 <= now) by (unfold valid_datetime in Hnow; lia).
    pose proof (Z.mod_le now DAY ltac:(lia) ltac:(unfold DAY; lia)). lia. }
  assert (Hv : valid_datetime (midnight + DAY - N * MINUTE) = true).
  { unfold valid_datetime, MAXORDINAL, DAY, MINUTE in *. lia. }
  rewrite Hnext, Hv. cbn [andb].
  split; [reflexivity|]. unfold DAY, MINUTE in *. lia.
Qed.

Lemma SunTime_within_today_sunrise_390 :
  let device := fixed_device 200 (Ok (PDict [])) noon_2023_11_14 in
  let st := Controller "os.local" "5f4d" in
  exists t,
    SunTime (PInt 390) st = (Ok (PDateTime t), ticked st)
    /\ replace_midnight noon_2023_11_14 <= t
       < replace_midnight noon_2023_11_14 + DAY
    /\ t - replace_midnight noon_2023_11_14 = (1440 - 390) * MINUTE.
Proof.
  intros device st.
  assert (H390 : 0 < 390 <= 1440) by lia.
  assert (Hnow : valid_datetime (wall_clock (clock_reads st)) = true)
    by (vm_compute; reflexivity).
  assert (Hnext : valid_datetime
                    (replace_midnight (wall_clock (clock_reads st)) + DAY)
                  = true)
    by (vm_compute; reflexivity).
  exact (SunTime_within_today 390 st H390 Hnow Hnext).
Defined.

(** X15: the decoded time depends on the clock only through the date: two
    readings on the same day give the same result. *)
Theorem SunTime_depends_on_date `{Runtime} (v : Z) (st1 st2 : State) :
  replace_midnight (wall_clock (clock_reads st1))
  = replace_midnight (wall_clock (clock_reads st2)) ->
  fst (SunTime (PInt v) st1) = fst (SunTime (PInt v) st2).
Proof.
  intros Hday. destruct (Z.eq_dec v 0) as [->|Hv]; [reflexivity|].
  rewrite !SunTime_int_run by exact Hv. cbn [fst]. rewrite Hday. reflexivity.
Qed.

Lemma SunTime_depends_on_date_two_readings :
  let device :=
    {| http_get := fun _ _ => Raise RequestException;
       wall_clock := fun n => noon_2023_11_14 + Z.of_nat n * 3600 * 1000000;
       repr_compound := fun _ => "";
       int_of_str := fun _ => Raise (ValueError []);
       fromtimestamp := fun _ => Raise OSError |} in
  fst (SunTime (PInt 360) new_object)
  = fst (SunTime (PInt 360) (ticked (ticked new_object))).
Proof.
  intros device.
  apply (SunTime_depends_on_date 360 new_object (ticked (ticked new_object))).
  vm_compute. reflexivity.
Defined.

Section RainDelayRun.
Context `{Runtime}.

Lemma RainDelaySet_datetime_run (dt : Z) (st : State) :
  Z.abs (dt - wall_clock (clock_reads st)) < 286331153 * MINUTE ->
  RainDelaySet (PDateTime dt) st
  = (Ok (PInt (Z.quot (dt - wall_clock (clock_reads st)) MINUTE)), ticked st).
Proof.
  intros Hnear. unfold RainDelaySet. cbn [py_truth negb].
  unfold bind, datetime_now, lift, ret. fold (ticked st). unfold timedelta.
  assert (Hv : valid_timedelta (dt - wall_clock (clock_reads st)) = true).
  { unfold valid_timedelta, DAY, MINUTE in *. lia. }
  rewrite Hv. rewrite float_minutes_truncates by exact Hnear. reflexivity.
Qed.
End RainDelayRun.

(** X16: given a number, as the docstring's "rain delay time (in hours)"
    and the commented-out example [rain_delay = 1] suggest, [RainDelaySet]
    returns 0 for 0 without reading the clock, and for any other integer
    reads the clock and raises [TypeError] (an [int] minus a [datetime]). *)
Theorem RainDelaySet_of_integer `{Runtime} (hours : Z) (st : State) :
  hours <> 0 ->
  RainDelaySet (PInt 0) st = (Ok (PInt 0), st)
  /\ RainDelaySet (PInt hours) st = (Raise TypeError, ticked st).
Proof.
  intros Hh. split; [reflexivity|].
  unfold RainDelaySet. cbn [py_truth].
  destruct (Z.eqb_spec hours 0) as [|_]; [contradiction|]. reflexivity.
Qed.

Lemma RainDelaySet_of_integer_one_hour :
  let device := fixed_device 200 (Ok (PDict [])) noon_2023_11_14 in
  RainDelaySet (PInt 0) new_object = (Ok (PInt 0), new_object)
  /\ RainDelaySet (PInt 1) new_object = (Raise TypeError, ticked new_object).
Proof.
  intros device. apply (RainDelaySet_of_integer 1 new_object). lia.
Defined.

(** X17: a resume time less than one minute from the clock reading,
    before or after it, encodes to 0, the value that turns rain delay off. *)
Theorem RainDelaySet_under_a_minute `{Runtime} (dt : Z) (st : State) :
  Z.abs (dt - wall_clock (clock_reads st)) < MINUTE ->
  RainDelaySet (PDateTime dt) st = (Ok (PInt 0), ticked st).
Proof.
  intros Hnear.
  rewrite RainDelaySet_datetime_run by (unfold MINUTE in *; lia).
  do 3 f_equal. apply Z.quot_small_iff; [unfold MINUTE; lia|].
  unfold MINUTE in *. lia.
Qed.

Lemma RainDelaySet_under_a_minute_59_seconds :
  let device := fixed_device 200 (Ok (PDict [])) noon_2023_11_14 in
  RainDelaySet (PDateTime (noon_2023_11_14 + 59999999)) new_object
  = (Ok (PInt 0), ticked new_object).
Proof.
  intros device.
  apply (RainDelaySet_under_a_minute (noon_2023_11_14 + 59999999) new_object).
  vm_compute. reflexivity.
Defined.

(** X18: a resume time in the past is not clamped: a minute or more
    before the clock reading (and less than 286331153 minutes before it) it
    encodes to the negative number of whole minutes elapsed. *)
Theorem RainDelaySet_of_past_time `{Runtime} (dt : Z) (st : State) :
  let now := wall_clock (clock_reads st) in
  MINUTE <= now - dt < 286331153 * MINUTE ->
  RainDelaySet (PDateTime dt) st
  = (Ok (PInt (- ((now - dt) / MINUTE))), ticked st)
  /\ - ((now - dt) / MINUTE) <= -1.
Proof.
  intros now Hpast. split.
  - rewrite RainDelaySet_datetime_run by (fold now; lia). fold now.
    do 3 f_equal.
    replace (dt - now) with (- (now - dt)) by lia.
    rewrite Z.quot_opp_l by (unfold MINUTE; lia).
    rewrite Z.quot_div_nonneg by (unfold MINUTE in *; lia). reflexivity.
  - assert (1 <= (now - dt) / MINUTE)
      by (apply Z.div_le_lower_bound; unfold MINUTE in *; lia).
    lia.
Qed.

Lemma RainDelaySet_of_past_time_yesterday :
  let device := fixed_device 200 (Ok (PDict [])) noon_2023_11_14 in
  RainDelaySet (PDateTime (noon_2023_11_14 - DAY - 1)) new_object
  = (Ok (PInt (-1440)), ticked new_object).
Proof.
  intros device.
  assert (Hpast : MINUTE <= wall_clock (clock_reads new_object)
                            - (noon_2023_11_14 - DAY - 1)
                  < 286331153 * MINUTE)
    by (vm_compute; split; [discriminate | reflexivity]).
  destruct (RainDelaySet_of_past_time (noon_2023_11_14 - DAY - 1) new_object
              Hpast) as [Hrun _].
  rewrite Hrun. vm_compute. reflexivity.
Defined.

(** ** The registries *)

(** X19: within each registry no two names share a wire key, and a name
    that is in both registries ([enable], [rain_delay]) is read and written
    under the same wire key. *)
Theorem registries_wire_keys `{Runtime} :
  NoDup (map (fun entry => _tag (snd entry)) my_get_args)
  /\ NoDup (map (fun entry => _tag (snd entry)) my_set_args)
  /\ (forall name fd_get fd_set,
        registry_get name my_get_args = Some fd_get ->
        registry_get name my_set_args = Some fd_set ->
        _tag fd_get = _tag fd_set
        /\ (name = "enable" \/ name = "rain_delay")).
Proof.
  split; [|split].
  - apply (bool_decide_unpack _). vm_compute. reflexivity.
  - apply (bool_decide_unpack _). vm_compute. reflexivity.
  - intros name fd_get fd_set. unfold my_set_args. cbn [registry_get].
    repeat match goal with
           | |- context [String.eqb name ?k] =>
               destruct (String.eqb_spec name k) as [->|_]
           end;
      try (intros _ [=]; fail);
      intros Hget Hset; vm_compute in Hget;
      try discriminate;
      injection Hget as <-; injection Hset as <-; split; auto.
Qed.
